(** * min-football: the weekly draft generator

    A shallow embedding of the draft-generation script
    ([rankGames], [generateRecap], [fetchGames], [getStubGames],
    [mapToSchema], [generateOpinions], [generateWhatsNext],
    [generateDraft]) and the properties of its ranking, mapping and
    orchestration stages.

    Conventions of the embedding.
    - A JavaScript game object is a record whose fields are typed after
      the provider's payload: integer numbers are [Z], a key that the
      object may lack is an [option] ([None] is [undefined]), and the two
      score fields distinguish an absent key, [null] and a number, since
      the eligibility filter compares them to [null] with [!==].
    - Strings are ASCII strings; [substring] and [toUpperCase] act on
      characters.
    - [Array.prototype.sort] is the stable sort of ECMAScript 2019; with a
      comparator that is a difference of integer keys its result is the
      list computed by [sort] below.
    - The in-place enrichment of a game object ([game._rankScore = ...],
      [game.recap_2s = ...]) is a functional record update; the objects
      of one payload are pairwise distinct.
    - [Math.random], the clock and the network are inputs of a run;
      console output and [mkdirSync] are left out, and a run is
      described by how it ends: [process.exit] or [writeFileSync]. *)

From Stdlib Require Import ZArith Lia List Ascii String Sorted.
From stdpp Require Import base numbers list sorting strings pretty gmap.

Local Open Scope string_scope.
Local Open Scope list_scope.
Local Open Scope Z_scope.

(** ** JavaScript values met in a payload *)

Module Js.

(** A score field of a payload: the key is absent ([undefined]), holds
    [null], or holds an integer. *)
Inductive points : Type :=
| PAbsent
| PNull
| PNum (n : Z).

(** [p !== null] *)
Definition not_null (p : points) : bool :=
  match p with
  | PNull => false
  | PAbsent | PNum _ => true
  end.

(** [p || 0], the result being used as a number. *)
Definition or_zero (p : points) : Z :=
  match p with
  | PNum n => n
  | PAbsent | PNull => 0
  end.

(** [`${p}`] *)
Definition show_points (p : points) : string :=
  match p with
  | PAbsent => "undefined"
  | PNull => "null"
  | PNum n => pretty n
  end.

(** Truthiness of an optional boolean field. *)
Definition truthy (b : option bool) : bool :=
  match b with
  | Some true => true
  | Some false | None => false
  end.

(** [n === k] for an optional integer field. *)
Definition strict_eq (n : option Z) (k : Z) : bool :=
  match n with
  | Some v => v =? k
  | None => false
  end.

(** [n > k]; a comparison with [undefined] is false. *)
Definition gt (n : option Z) (k : Z) : bool :=
  match n with
  | Some v => k <? v
  | None => false
  end.

(** [n <= k]; a comparison with [undefined] is false. *)
Definition le (n : option Z) (k : Z) : bool :=
  match n with
  | Some v => v <=? k
  | None => false
  end.

(** [`${n}`] for an optional integer. *)
Definition show_num (n : option Z) : string :=
  match n with
  | Some v => pretty v
  | None => "undefined"
  end.

(** [s || d] for an optional string: the empty string is falsy. *)
Definition or_string (s : option string) (d : string) : string :=
  match s with
  | Some EmptyString | None => d
  | Some v => v
  end.

(** [n || d] for an optional integer: zero is falsy. *)
Definition or_num (n : option Z) (d : Z) : Z :=
  match n with
  | Some v => if v =? 0 then d else v
  | None => d
  end.

(** [l || d] for an optional array: every array is truthy. *)
Definition or_array {A : Type} (l : option (list A)) (d : list A) : list A :=
  match l with
  | Some v => v
  | None => d
  end.

(** [c.toUpperCase()] on one ASCII character. *)
Definition upper_char (c : ascii) : ascii :=
  let n := N_of_ascii c in
  if ((97 <=? n) && (n <=? 122))%N then ascii_of_N (n - 32) else c.

(** [s.toUpperCase()] *)
Fixpoint toUpperCase (s : string) : string :=
  match s with
  | EmptyString => EmptyString
  | String c r => String (upper_char c) (toUpperCase r)
  end.

(** [s.substring(0, n)] *)
Definition substring0 (n : nat) (s : string) : string :=
  String.substring 0 n s.

(** [String(n).padStart(2, '0')] *)
Definition padStart2 (n : Z) : string :=
  let s := pretty n in
  if (String.length s <? 2)%nat then "0" +:+ s else s.

(** [Array.prototype.sort(cmp)]: [x] is placed before the first element
    that the comparator does not order strictly before it. *)
Section Sort.
Context {A : Type} (cmp : A → A → Z).

Fixpoint insert_sorted (x : A) (l : list A) : list A :=
  match l with
  | [] => [x]
  | y :: r => if 0 <? cmp x y then y :: insert_sorted x r else x :: l
  end.

Fixpoint sort (l : list A) : list A :=
  match l with
  | [] => []
  | x :: r => insert_sorted x (sort r)
  end.
End Sort.

End Js.

(** ** Game objects *)

Inductive side : Type := home | away.

Record game : Type := Game {
  id : option string;
  home_team : string;
  away_team : string;
  home_points : Js.points;
  away_points : Js.points;
  completed : option bool;
  periods : option Z;
  conference_game : option bool;
  tags : option (list string);
  home_id : option Z;
  away_id : option Z;
  (* set by rankGames *)
  _rankScore : option Z;
  _scoreDiff : option Z;
  _totalPoints : option Z;
  _winner : option side;
  (* set by generateRecap *)
  recap_2s : option string;
  one_stat : option string;
  why_it_mattered : option string
}.

(** [game._rankScore = s; game._scoreDiff = d; game._totalPoints = t;
    game._winner = w] *)
Definition set_rank (g : game) (s d t : Z) (w : side) : game :=
  {| id := id g; home_team := home_team g; away_team := away_team g;
     home_points := home_points g; away_points := away_points g;
     completed := completed g; periods := periods g;
     conference_game := conference_game g; tags := tags g;
     home_id := home_id g; away_id := away_id g;
     _rankScore := Some s; _scoreDiff := Some d; _totalPoints := Some t;
     _winner := Some w;
     recap_2s := recap_2s g; one_stat := one_stat g;
     why_it_mattered := why_it_mattered g |}.

(** [game.recap_2s = r; game.one_stat = o; game.why_it_mattered = y] *)
Definition set_text (g : game) (r o y : string) : game :=
  {| id := id g; home_team := home_team g; away_team := away_team g;
     home_points := home_points g; away_points := away_points g;
     completed := completed g; periods := periods g;
     conference_game := conference_game g; tags := tags g;
     home_id := home_id g; away_id := away_id g;
     _rankScore := _rankScore g; _scoreDiff := _scoreDiff g;
     _totalPoints := _totalPoints g; _winner := _winner g;
     recap_2s := Some r; one_stat := Some o; why_it_mattered := Some y |}.

(** ** rankGames *)

(** The predicate of the filter:
    [g.completed && g.home_points !== null && g.away_points !== null]. *)
Definition eligible (g : game) : bool :=
  Js.truthy (completed g)
  && Js.not_null (home_points g)
  && Js.not_null (away_points g).

(** [if (c) score += k], one step of the accumulation. *)
Definition bump (c : bool) (k : Z) (score : Z) : Z :=
  if c then score + k else score.

(** The body of the first [map]: the score is accumulated statement by
    statement, then the four derived fields are stored on the game. *)
Definition annotate (g : game) : game :=
  let score := 0 in
  let homeScore := Js.or_zero (home_points g) in
  let awayScore := Js.or_zero (away_points g) in
  let scoreDiff := Z.abs (homeScore - awayScore) in
  let totalPoints := homeScore + awayScore in
  let score := bump (scoreDiff <=? 8) 6 score in
  let score := bump (scoreDiff <=? 3) 4 score in
  let score := bump (scoreDiff =? 0) 3 score in
  let score := bump (70 <? totalPoints) 3 score in
  let score := bump (80 <? totalPoints) 2 score in
  let score := bump (Js.truthy (conference_game g)) 1 score in
  let score := bump (Js.strict_eq (periods g) 5) 4 score in
  let score := bump (Js.gt (periods g) 5) 6 score in
  set_rank g score scoreDiff totalPoints
    (if awayScore <? homeScore then home else away).

(** The key read by the comparator; [annotate] always sets it. *)
Definition rank_key (g : game) : Z := default 0 (_rankScore g).

(** [(a, b) => b._rankScore - a._rankScore] *)
Definition by_rank (a b : game) : Z := rank_key b - rank_key a.

Definition rankGames (games : list game) : list game :=
  let completed := filter (λ g, eligible g = true) games in
  take 5 (Js.sort by_rank (annotate <$> completed)).

(** ** generateRecap *)

(** The value of one [Math.floor(Math.random() * whyOptions.length)] with
    three options. *)
Inductive draw : Type := Draw0 | Draw1 | Draw2.

(** [w === 'home'] *)
Definition is_home (w : option side) : bool :=
  match w with
  | Some home => true
  | Some away | None => false
  end.

(** [w === 'away'] *)
Definition is_away (w : option side) : bool :=
  match w with
  | Some away => true
  | Some home | None => false
  end.

(** [d !== 1] *)
Definition differs_from_one (d : option Z) : bool :=
  match d with
  | Some 1 => false
  | Some _ | None => true
  end.

Definition generateRecap (r : draw) (g : game) : game :=
  let scoreDiff := _scoreDiff g in
  let totalPoints := _totalPoints g in
  let winner := _winner g in
  let wonTeam := if is_home winner then home_team g else away_team g in
  let lostTeam := if is_away winner then home_team g else away_team g in
  let isClose := Js.le scoreDiff 8 in
  let isShootout := Js.gt totalPoints 70 in
  let isOvertime := Js.gt (periods g) 4 in
  let sentence1 :=
    if isOvertime then
      wonTeam +:+ " survived "
        +:+ (if isShootout then "a back-and-forth shootout" else "a tight contest")
        +:+ " that required overtime to decide."
    else if isClose then
      if isShootout then
        "In a high-scoring affair, " +:+ wonTeam +:+ " edged " +:+ lostTeam
          +:+ " by " +:+ Js.show_num scoreDiff +:+ " point"
          +:+ (if differs_from_one scoreDiff then "s" else "") +:+ "."
      else
        wonTeam +:+ " pulled out a narrow " +:+ Js.show_num scoreDiff
          +:+ "-point victory over " +:+ lostTeam +:+ "."
    else
      wonTeam +:+ " took control "
        +:+ (if isShootout then "in the shootout" else "early")
        +:+ " and maintained their lead throughout." in
  let sentence2 :=
    if isShootout then
      "Both teams' offenses moved the ball effectively, but "
        +:+ (if is_home winner then wonTeam +:+ " managed to get more stops"
             else lostTeam +:+ " fell short on crucial drives")
        +:+ "."
    else
      "The decisive moments came "
        +:+ (if isClose then "late in the game"
             else "when the winning team established momentum")
        +:+ "." in
  let recap := sentence1 +:+ " " +:+ sentence2 in
  let stat :=
    if isOvertime then Js.show_num (periods g) +:+ " periods total"
    else if isShootout then "Combined " +:+ Js.show_num totalPoints +:+ " points"
    else if isClose then Js.show_num scoreDiff +:+ "-point margin"
    else wonTeam +:+ " won by " +:+ Js.show_num scoreDiff in
  let why0 :=
    "Both teams showed resilience, but execution in key moments made the difference." in
  let why1 :=
    if isShootout
    then "The high-scoring affair showcased explosive offenses struggling to get defensive stops."
    else "Defensive discipline and limiting mistakes proved critical in the outcome." in
  let why2 :=
    if isClose
    then "A single big play or stop swung momentum in this tightly contested game."
    else "The winner established control and never let their opponent back in the game." in
  set_text g recap stat
    (match r with Draw0 => why0 | Draw1 => why1 | Draw2 => why2 end).

(** ** getStubGames *)

Definition getStubGames : list game :=
  [ {| id := Some "2025-08-30-278-290";
       home_team := "Fresno State";
       away_team := "Georgia Southern";
       home_points := Js.PNum 28;
       away_points := Js.PNum 24;
       completed := Some true;
       periods := None; conference_game := None; tags := None;
       home_id := None; away_id := None;
       _rankScore := None; _scoreDiff := None; _totalPoints := None;
       _winner := None;
       recap_2s := None; one_stat := None; why_it_mattered := None |} ].

(** ** fetchGames *)

(** The environment read at start-up:
    [SEASON], [WEEK], [SCOPE] (after [parseInt] and the defaults) and
    [process.env.CFBD_API_KEY]. *)
Record config : Type := Config {
  SEASON : Z;
  WEEK : Z;
  SCOPE : string;
  API_KEY : option string
}.

(** What [await gamesResponse.json()] followed by [games.length] gives:
    an array of game objects, or an exception (the body is not JSON, or
    is [null]). *)
Inductive body : Type :=
| BodyThrows
| BodyGames (games : list game).

(** What [await fetch(url, ...)] gives: a rejection (transport error) or a
    response with its [ok] flag, [status] and body. *)
Inductive fetched : Type :=
| FetchRejects
| FetchResponds (ok : bool) (status : Z) (b : body).

(** The network: from the request URL and the bearer token to the
    outcome of the request. *)
Definition network : Type := string → string → fetched.

(** [!API_KEY]: the variable is unset or empty. *)
Definition no_key (k : option string) : bool :=
  match k with
  | None | Some EmptyString => true
  | Some _ => false
  end.

Definition gamesUrl (season week : Z) : string :=
  "https://api.collegefootballdata.com/games?year=" +:+ pretty season
    +:+ "&week=" +:+ pretty week +:+ "&seasonType=regular".

Definition fetchGames (cfg : config) (net : network)
    (season week : Z) (scope : string) : list game :=
  match API_KEY cfg with
  | None | Some EmptyString => getStubGames
  | Some key =>
      match net (gamesUrl season week) key with
      | FetchRejects => getStubGames                 (* catch *)
      | FetchResponds false _ _ => getStubGames      (* throw, catch *)
      | FetchResponds true _ BodyThrows => getStubGames
      | FetchResponds true _ (BodyGames games) => games
      end
  end.

(** ** mapToSchema *)

Module TeamData.
(** An entry of the team-metadata lookup. *)
Record entry : Type := Entry {
  abbr : option string;
  logo : option string
}.
End TeamData.

Module Schema.
Record team : Type := Team {
  name : string;
  abbr : string;
  logo : string
}.

Record id_block : Type := Ids {
  home_id : Z;
  away_id : Z;
  game_id : string
}.

Record published : Type := Published {
  home : team;
  away : team;
  final : string;
  recap_2s : string;
  one_stat : string;
  why_it_mattered : string;
  tags : list string;
  ids : id_block
}.
End Schema.

(** [teamData[name]?.abbr] and [teamData[name]?.logo] *)
Definition lookup_abbr (teamData : gmap string TeamData.entry) (n : string)
    : option string :=
  teamData !! n ≫= TeamData.abbr.

Definition lookup_logo (teamData : gmap string TeamData.entry) (n : string)
    : option string :=
  teamData !! n ≫= TeamData.logo.

(** The en-dash U+2013 in UTF-8. *)
Definition en_dash : string :=
  String (ascii_of_N 226) (String (ascii_of_N 128) (String (ascii_of_N 147) "")).

Definition mapToSchema (g : game) (teamData : gmap string TeamData.entry)
    : Schema.published :=
  {| Schema.home :=
       {| Schema.name := home_team g;
          Schema.abbr :=
            Js.or_string (lookup_abbr teamData (home_team g))
              (Js.toUpperCase (Js.substring0 4 (home_team g)));
          Schema.logo := Js.or_string (lookup_logo teamData (home_team g)) "" |};
     Schema.away :=
       {| Schema.name := away_team g;
          Schema.abbr :=
            Js.or_string (lookup_abbr teamData (away_team g))
              (Js.toUpperCase (Js.substring0 4 (away_team g)));
          Schema.logo := Js.or_string (lookup_logo teamData (away_team g)) "" |};
     Schema.final :=
       Js.show_points (home_points g) +:+ en_dash +:+ Js.show_points (away_points g);
     Schema.recap_2s := Js.or_string (recap_2s g) "";
     Schema.one_stat := Js.or_string (one_stat g) "";
     Schema.why_it_mattered := Js.or_string (why_it_mattered g) "";
     Schema.tags := Js.or_array (tags g) [];
     Schema.ids :=
       {| Schema.home_id := Js.or_num (home_id g) 0;
          Schema.away_id := Js.or_num (away_id g) 0;
          Schema.game_id := Js.or_string (id g) "" |} |}.

(** ** generateOpinions, generateWhatsNext *)

Module Draft.
Record meta_block : Type := Meta {
  season : Z;
  week : Z;
  scope : string;
  generated_at : string;
  sources : list string
}.

Record upcoming : Type := Upcoming {
  when_ : string;
  match_ : string;
  hook : string
}.

Record document : Type := Document {
  meta : meta_block;
  top_games : list Schema.published;
  quick_opinions : list string;
  whats_next : list upcoming
}.
End Draft.

Definition generateOpinions (games : list game) : list string :=
  [ "Defensive coordinators are winning the early-season chess matches with aggressive third-down schemes.";
    "Quarterback efficiency on first and second down remains the strongest predictor of offensive success.";
    "Red-zone execution separated close games this week; teams that settled for field goals early paid the price later.";
    "Turnover margin continues to be the most reliable indicator of game outcomes, with a +2 swing worth roughly 10 points." ].

Definition generateWhatsNext (week : Z) : list Draft.upcoming :=
  [ {| Draft.when_ := "Fri"; Draft.match_ := "TBD";
       Draft.hook := "Friday night spotlight" |};
    {| Draft.when_ := "Sat"; Draft.match_ := "TBD";
       Draft.hook := "Weekend showcase" |} ].

(** ** generateDraft *)

(** How a run ends: [process.exit(code)], or [writeFileSync] called with
    the path [join(__dirname, ...segments)] and the document. *)
Inductive outcome : Type :=
| Exit (code : Z)
| Written (segments : list string) (doc : Draft.document).

(** The inputs of a run besides the environment: the network, the
    successive values drawn from [Math.random] (the [i]-th ranked game
    gets the [i]-th draw) and [new Date().toISOString()]. *)
Record world : Type := World {
  net : network;
  random : nat → draw;
  now : string
}.

Definition generateDraft (cfg : config) (w : world) : outcome :=
  let games := fetchGames cfg (net w) (SEASON cfg) (WEEK cfg) (SCOPE cfg) in
  match games with
  | [] => Exit 1
  | _ :: _ =>
      let ranked := rankGames games in
      let processedGames :=
        imap (λ i g, mapToSchema (generateRecap (random w i) g) ∅) ranked in
      let opinions := generateOpinions ranked in
      let whatsNext := generateWhatsNext (WEEK cfg) in
      let draft :=
        {| Draft.meta :=
             {| Draft.season := SEASON cfg;
                Draft.week := WEEK cfg;
                Draft.scope := SCOPE cfg;
                Draft.generated_at := now w;
                Draft.sources := ["cfbd:v1 games/box; rankings/v1"] |};
           Draft.top_games := processedGames;
           Draft.quick_opinions := opinions;
           Draft.whats_next := whatsNext |} in
      let weekStr := Js.padStart2 (WEEK cfg) in
      Written [".."; "data"; SCOPE cfg; "week_" +:+ weekStr +:+ ".json"] draft
  end.

(** ** Sample payloads *)

(** A payload object with the seven keys of the provider's contract. *)
Definition payload (h a : string) (hp ap : Js.points) (c : bool)
    (p : Z) (conf : bool) : game :=
  {| id := None; home_team := h; away_team := a;
     home_points := hp; away_points := ap;
     completed := Some c; periods := Some p; conference_game := Some conf;
     tags := None; home_id := None; away_id := None;
     _rankScore := None; _scoreDiff := None; _totalPoints := None;
     _winner := None;
     recap_2s := None; one_stat := None; why_it_mattered := None |}.

Definition sample_cfg : config :=
  {| SEASON := 2025; WEEK := 1; SCOPE := "cfb"; API_KEY := Some "secret" |}.

Definition answering (games : list game) : world :=
  {| net := λ _ _, FetchResponds true 200 (BodyGames games);
     random := λ _, Draw0;
     now := "2025-09-01T00:00:00.000Z" |}.

Definition scenario_game : game :=
  payload "A" "B" (Js.PNum 28) (Js.PNum 24) true 4 false.

Definition fresno_game : game :=
  payload "Fresno State" "Georgia Southern" (Js.PNum 28) (Js.PNum 24) true 4 false.

(** A scheduled game that has not been played: no scores yet. *)
Definition unplayed_game : game :=
  payload "A" "B" Js.PNull Js.PNull false 4 false.

(** Three completed games; the first and the third get the same rank
    score, the second a higher one. *)
Definition first_close : game :=
  payload "A" "B" (Js.PNum 28) (Js.PNum 24) true 4 false.
Definition tied_game : game :=
  payload "C" "D" (Js.PNum 21) (Js.PNum 21) true 4 false.
Definition second_close : game :=
  payload "E" "F" (Js.PNum 10) (Js.PNum 14) true 4 false.

Definition without_key : config :=
  {| SEASON := 2025; WEEK := 1; SCOPE := "cfb"; API_KEY := None |}.

(** ** The specification's wording, for comparison with the code *)

(** Eligibility as the specification words it: completed, both scores
    present and non-negative. *)
Definition spec_eligible (g : game) : bool :=
  match completed g, home_points g, away_points g with
  | Some true, Js.PNum h, Js.PNum a => (0 <=? h) && (0 <=? a)
  | _, _, _ => false
  end.

(** The bonuses as the specification lists them, each on its own. *)
Definition spec_close_bonus (scoreDifferential : Z) : Z :=
  (if scoreDifferential <=? 8 then 6 else 0)
  + (if scoreDifferential <=? 3 then 4 else 0)
  + (if scoreDifferential =? 0 then 3 else 0).

Definition spec_shootout_bonus (totalPoints : Z) : Z :=
  (if 70 <? totalPoints then 3 else 0)
  + (if 80 <? totalPoints then 2 else 0).

Definition spec_conference_bonus (conferenceGame : bool) : Z :=
  if conferenceGame then 1 else 0.

Definition spec_overtime_bonus (periodsPlayed : option Z) : Z :=
  match periodsPlayed with
  | Some p => if p =? 5 then 4 else if 5 <? p then 6 else 0
  | None => 0
  end.

(** The upstream fetch fails: no credential, a transport error, or a
    response that is not OK. *)
Definition upstream_fails (cfg : config) (n : network) (season week : Z) : bool :=
  match API_KEY cfg with
  | None | Some EmptyString => true
  | Some key =>
      match n (gamesUrl season week) key with
      | FetchRejects => true
      | FetchResponds ok _ _ => negb ok
      end
  end.

(** A published team carries the fallback abbreviation and no logo. *)
Definition fallback_team (t : Schema.team) : Prop :=
  Schema.abbr t = Js.toUpperCase (Js.substring0 4 (Schema.name t))
  ∧ Schema.logo t = "".

(** Records with rank score [k]. *)
Definition scored (k : Z) (l : list game) : list game :=
  filter (λ g, rank_key g = k) l.

(** The eligible records of a payload, annotated, in payload order: what
    [rankGames] hands to [sort]. *)
Definition eligible_annotated (games : list game) : list game :=
  annotate <$> filter (λ g, eligible g = true) games.

(** A comparator that orders by decreasing integer key. *)
Definition by_key {A : Type} (key : A → Z) (a b : A) : Z := key b - key a.

(** Keys never increase along the list. *)
Definition descending {A : Type} (key : A → Z) : list A → Prop :=
  StronglySorted (λ a b, key b ≤ key a).

(** ** Further definitions: the generator *)

(** The three flags that [generateRecap] derives from a ranked game:
    [scoreDiff <= 8], [totalPoints > 70], [game.periods > 4]. *)
Definition isClose (g : game) : bool := Js.le (_scoreDiff g) 8.
Definition isShootout (g : game) : bool := Js.gt (_totalPoints g) 70.
Definition isOvertime (g : game) : bool := Js.gt (periods g) 4.

(** The three [whyOptions] of a game, in array order. *)
Definition whyOptions (g : game) : list string :=
  [ "Both teams showed resilience, but execution in key moments made the difference.";
    if isShootout g
    then "The high-scoring affair showcased explosive offenses struggling to get defensive stops."
    else "Defensive discipline and limiting mistakes proved critical in the outcome.";
    if isClose g
    then "A single big play or stop swung momentum in this tightly contested game."
    else "The winner established control and never let their opponent back in the game." ].

(** Six completed games, one more than the ranker keeps. *)
Definition six_games : list game :=
  [ first_close; tied_game; second_close;
    payload "G" "H" (Js.PNum 45) (Js.PNum 10) true 4 false;
    payload "I" "J" (Js.PNum 38) (Js.PNum 35) true 5 true;
    payload "K" "L" (Js.PNum 17) (Js.PNum 14) true 4 false ].

(** ** Further definitions: the front-end state (state.js)

    Conventions for the front end.
    - The [State] object is a record threaded through the calls; a
      setter returns the new state.
    - An event handler runs to its end before the next one starts: the
      awaits inside one handler are sequential and two handlers are not
      interleaved.
    - The date arithmetic of [resolveWeekNumber] starts from the
      milliseconds between the date and August 1st of its year.
    - DOM elements are described by what the code puts into them; the
      HTML parser, the locale formatting of dates and the debounce timer
      of the search box stay outside. *)

Module JsString.

(** [c.toLowerCase()] on one ASCII character. *)
Definition lower_char (c : ascii) : ascii :=
  let n := N_of_ascii c in
  if ((65 <=? n) && (n <=? 90))%N then ascii_of_N (n + 32) else c.

(** [s.toLowerCase()] *)
Fixpoint toLowerCase (s : string) : string :=
  match s with
  | EmptyString => EmptyString
  | String c r => String (lower_char c) (toLowerCase r)
  end.

(** [s.includes(t)]: [t] is a prefix of [s] or occurs further on. *)
Fixpoint includes (s t : string) : bool :=
  String.prefix t s
  || match s with
     | EmptyString => false
     | String _ r => includes r t
     end.

(** Every character of [s] is an ASCII character (code below 128); on
    such text [toLowerCase] and [toUpperCase] act character by
    character and keep the length. *)
Fixpoint is_ascii (s : string) : bool :=
  match s with
  | EmptyString => true
  | String c r => (N_of_ascii c <? 128)%N && is_ascii r
  end.

End JsString.

Module State.

(** The week held by the state: the string ['current'] or a number. *)
Inductive week : Type :=
| Current
| Week (n : Z).

Section WithData.
(** The type of a loaded draft file. *)
Context {data : Type}.

Record t : Type := Make {
  _scope : string;
  _week : week;
  _data : option data;
  _searchTerm : string
}.

(** The object literal. *)
Definition initial : t :=
  {| _scope := "cfb"; _week := Current; _data := None; _searchTerm := "" |}.

Definition getCurrentScope (st : t) : string := _scope st.
Definition getCurrentWeek (st : t) : week := _week st.
Definition getSearchTerm (st : t) : string := _searchTerm st.
Definition getData (st : t) : option data := _data st.

(** Returns the new state and the boolean result. *)
Definition setScope (scope : string) (st : t) : t * bool :=
  if bool_decide (scope = "cfb") || bool_decide (scope = "nfl")
  then ({| _scope := scope; _week := _week st; _data := _data st;
           _searchTerm := _searchTerm st |}, true)
  else (st, false).

Definition setWeek (week : week) (st : t) : t :=
  {| _scope := _scope st; _week := week; _data := _data st;
     _searchTerm := _searchTerm st |}.

Definition setSearchTerm (term : string) (st : t) : t :=
  {| _scope := _scope st; _week := _week st; _data := _data st;
     _searchTerm := JsString.toLowerCase term |}.

Definition setData (d : option data) (st : t) : t :=
  {| _scope := _scope st; _week := _week st; _data := d;
     _searchTerm := _searchTerm st |}.

End WithData.
Global Arguments t : clear implicits.

(** [resolveWeekNumber(date)], from [diffTime = date - seasonStart] on:
    the milliseconds between the date and August 1st of its year. *)
Definition resolveWeekNumber (diffTime : Z) : Z :=
  let diffDays := diffTime / (1000 * 60 * 60 * 24) in
  let week := diffDays / 7 + 1 in
  Z.max 1 (Z.min week 17).

(** [resolveWeekNumber(date)] with its first two lines: [date] is a
    time in milliseconds, [getFullYear] gives the year of a time and
    [august1] the time of [new Date(year, 7, 1)]; the calendar and the
    time zone stay outside. *)
Definition resolveWeekNumberAt (getFullYear august1 : Z → Z) (date : Z) : Z :=
  let seasonStart := august1 (getFullYear date) in
  let diffTime := date - seasonStart in
  resolveWeekNumber diffTime.

(** [dataPath(scope, week)]; [today] is the [diffTime] of the call
    [this.resolveWeekNumber()] with the current date. *)
Definition dataPath (today : Z) (scope : string) (week : week) : string :=
  let weekNum :=
    match week with
    | Current => resolveWeekNumber today
    | Week n => n
    end in
  let weekStr := Js.padStart2 weekNum in
  "/data/" +:+ scope +:+ "/week_" +:+ weekStr +:+ ".json".

Definition getCurrentDataPath {data : Type} (today : Z) (st : t data) : string :=
  dataPath today (_scope st) (_week st).

(** A call of one of the setters, and a sequence of calls. *)
Inductive call {data : Type} : Type :=
| SetScope (scope : string)
| SetWeek (w : week)
| SetSearchTerm (term : string)
| SetData (d : option data).
Global Arguments call : clear implicits.

Definition step {data : Type} (st : t data) (c : call data) : t data :=
  match c with
  | SetScope scope => fst (setScope scope st)
  | SetWeek w => setWeek w st
  | SetSearchTerm term => setSearchTerm term st
  | SetData d => setData d st
  end.

Definition run {data : Type} (calls : list (call data)) (st : t data) : t data :=
  foldl step st calls.

End State.

(** ** Further definitions: the front end (rendering and loading) *)

(** A draft file as the front end reads it after [response.json()]: an
    object whose keys may be missing and, when present, have the types
    of the published schema. *)
Module File.

Record team : Type := Team {
  name : option string;
  abbr : option string;
  logo : option string
}.

Record game : Type := Game {
  home : option team;
  away : option team;
  final : option string;
  recap_2s : option string;
  one_stat : option string;
  why_it_mattered : option string;
  tags : option (list string)
}.

Record upcoming : Type := Upcoming {
  when_ : option string;
  match_ : option string;
  hook : option string
}.

Record meta_block : Type := Meta {
  week : option Z;
  generated_at : option string
}.

Record data : Type := Data {
  meta : option meta_block;
  top_games : option (list game);
  quick_opinions : option (list string);
  whats_next : option (list upcoming)
}.

End File.

Module Render.

(** What a container holds after a render: the "Draft not ready yet"
    note, or an element with its [style.display = 'none'] flag. *)
Inductive child (E : Type) : Type :=
| NoDraft
| Item (e : E) (hidden : bool).
Global Arguments NoDraft {E}.
Global Arguments Item {E} e hidden.

(** [game.home?.name || ''] and the like. *)
Definition team_field (t : option File.team)
    (f : File.team → option string) : string :=
  Js.or_string (t ≫= f) "".

Definition _getGameSearchText (game : File.game) : string :=
  let parts :=
    [ team_field (File.home game) File.name;
      team_field (File.home game) File.abbr;
      team_field (File.away game) File.name;
      team_field (File.away game) File.abbr;
      Js.or_string (File.recap_2s game) "";
      Js.or_string (File.one_stat game) "";
      Js.or_string (File.why_it_mattered game) "";
      String.concat " " (Js.or_array (File.tags game) []) ] in
  JsString.toLowerCase (String.concat " " parts).

(** [searchTerm && !text.includes(searchTerm)] *)
Definition filtered_out (searchTerm text : string) : bool :=
  match searchTerm with
  | EmptyString => false
  | String _ _ => negb (JsString.includes text searchTerm)
  end.

(** [`${s}`] for an optional string. *)
Definition show_string (s : option string) : string := default "undefined" s.

Section Dom.
(** The parts of the browser that stay outside: the element that
    [_createGameElement] builds from a game, the [textContent] of an
    element whose [innerHTML] was set, and the locale rendering of a
    date ([toLocaleDateString], a space, [toLocaleTimeString]). *)
Context {element : Type}.
Context (_createGameElement : File.game → element).
Context (textContent : string → string).
Context (localeDateTime : string → string).

(** The page: the three containers ([None] when [querySelector] finds
    nothing), the document title and the text of [#updated]. *)
Record page : Type := Page {
  top_games_box : option (list (child element));
  opinions_box : option (list (child string));
  whats_next_box : option (list (child string));
  title : string;
  updated : option string
}.

Definition renderTopGames (searchTerm : string)
    (games : option (list File.game)) (p : page) : page :=
  match top_games_box p with
  | None => p
  | Some _ =>
      let children :=
        match games with
        | None | Some [] => [NoDraft]
        | Some games =>
            (λ game,
               Item (_createGameElement game)
                 (filtered_out searchTerm (_getGameSearchText game)))
              <$> games
        end in
      {| top_games_box := Some children; opinions_box := opinions_box p;
         whats_next_box := whats_next_box p; title := title p;
         updated := updated p |}
  end.

Definition renderOpinions (searchTerm : string)
    (opinions : option (list string)) (p : page) : page :=
  match opinions_box p with
  | None => p
  | Some _ =>
      let children :=
        match opinions with
        | None | Some [] => [NoDraft]
        | Some opinions =>
            (λ opinion,
               Item opinion
                 (filtered_out searchTerm (JsString.toLowerCase opinion)))
              <$> opinions
        end in
      {| top_games_box := top_games_box p; opinions_box := Some children;
         whats_next_box := whats_next_box p; title := title p;
         updated := updated p |}
  end.

(** The [innerHTML] set on the element of one upcoming match. *)
Definition next_html (item : File.upcoming) : string :=
  "<strong>" +:+ show_string (File.when_ item) +:+ ":</strong> "
    +:+ show_string (File.match_ item) +:+ " — "
    +:+ Js.or_string (File.hook item) "".

Definition renderWhatsNext (searchTerm : string)
    (nextItems : option (list File.upcoming)) (p : page) : page :=
  match whats_next_box p with
  | None => p
  | Some _ =>
      let children :=
        match nextItems with
        | None | Some [] => [NoDraft]
        | Some nextItems =>
            (λ item,
               Item (next_html item)
                 (filtered_out searchTerm
                    (JsString.toLowerCase (textContent (next_html item)))))
              <$> nextItems
        end in
      {| top_games_box := top_games_box p; opinions_box := opinions_box p;
         whats_next_box := Some children; title := title p;
         updated := updated p |}
  end.

Definition renderMeta (meta : option File.meta_block) (p : page) : page :=
  match meta with
  | None => p
  | Some meta =>
      let week := Js.or_num (File.week meta) 0 in
      let title' :=
        "Five-Minute Football"
          +:+ (if week =? 0 then "" else " — Week " +:+ pretty week) in
      let updated' :=
        match updated p, File.generated_at meta with
        | Some _, Some (String c s) =>
            Some ("Updated " +:+ localeDateTime (String c s))
        | u, _ => u
        end in
      {| top_games_box := top_games_box p; opinions_box := opinions_box p;
         whats_next_box := whats_next_box p; title := title';
         updated := updated' |}
  end.

(** [applySearchFilter()], given the state's data and search term. *)
Definition applySearchFilter (st : State.t File.data) (p : page) : page :=
  match State.getData st with
  | None => p
  | Some data =>
      let term := State.getSearchTerm st in
      renderWhatsNext term (File.whats_next data)
        (renderOpinions term (File.quick_opinions data)
           (renderTopGames term (File.top_games data) p))
  end.

End Dom.
End Render.

Module App.

(** The site: what [fetch(path)] followed by [response.json()] gives,
    [None] standing for a rejection, a response that is not OK, or a
    body that is not JSON. *)
Definition site : Type := string → option File.data.

Definition empty_meta : File.meta_block :=
  {| File.week := None; File.generated_at := None |}.

Section Dom.
Context {element : Type}.
Context (_createGameElement : File.game → element).
Context (textContent : string → string).
Context (localeDateTime : string → string).
Context (server : site).

Definition loadData (path : string) (st : State.t File.data)
    : State.t File.data * option File.data :=
  match server path with
  | Some data => (State.setData (Some data) st, Some data)
  | None => (st, None)
  end.

Definition loadFallback (st : State.t File.data)
    : State.t File.data * option File.data :=
  let '(st, data) := loadData "/data/week_00.example.json" st in
  let '(st, data) :=
    match data with
    | None => loadData "data/week_00.example.json" st
    | Some _ => (st, data)
    end in
  match data with
  | Some _ => (State.setData data st, data)
  | None => (st, None)
  end.

Definition renderAll (st : State.t File.data) (data : option File.data)
    (p : Render.page) : Render.page (element := element) :=
  let term := State.getSearchTerm st in
  match data with
  | None =>
      Render.renderWhatsNext textContent term (Some [])
        (Render.renderOpinions term (Some [])
           (Render.renderTopGames _createGameElement term (Some []) p))
  | Some data =>
      Render.renderMeta localeDateTime
        (Some (default empty_meta (File.meta data)))
        (Render.renderWhatsNext textContent term
           (Some (Js.or_array (File.whats_next data) []))
           (Render.renderOpinions term
              (Some (Js.or_array (File.quick_opinions data) []))
              (Render.renderTopGames _createGameElement term
                 (Some (Js.or_array (File.top_games data) [])) p)))
  end.

(** [today] is the [diffTime] that [resolveWeekNumber] gets from the
    clock when the week is ['current']. *)
Definition initialize (today : Z) (st : State.t File.data) (p : Render.page)
    : State.t File.data * Render.page (element := element) :=
  let scope := State.getCurrentScope st in
  let week := State.getCurrentWeek st in
  let path := State.dataPath today scope week in
  let '(st, data) := loadData path st in
  let '(st, data) :=
    match data with
    | None => loadFallback st
    | Some _ => (st, data)
    end in
  (st, renderAll st data p).

(** [week === 0] *)
Definition is_week_zero (w : State.week) : bool :=
  match w with
  | State.Week 0 => true
  | _ => false
  end.

Definition loadAndRender (today : Z) (st : State.t File.data) (p : Render.page)
    : State.t File.data * Render.page (element := element) :=
  let scope := State.getCurrentScope st in
  let week := State.getCurrentWeek st in
  let path := State.dataPath today scope week in
  let '(st, data) := loadData path st in
  match data with
  | None =>
      if negb (is_week_zero week) then (st, renderAll st None p)
      else
        let '(st, data) := loadFallback st in
        (st, renderAll st data p)
  | Some _ => (st, renderAll st data p)
  end.

Definition handleScopeChange (today : Z) (value : string)
    (st : State.t File.data) (p : Render.page)
    : State.t File.data * Render.page (element := element) :=
  let st := fst (State.setScope value st) in
  loadAndRender today st p.

End Dom.
End App.

(** ** From the written document to the file read *)

(** What [JSON.parse] gives back for [JSON.stringify(draft, null, 2)]:
    every key of the document is present. The [ids] block, the season,
    the scope and the sources are not read by the front end. *)
Definition to_file_team (t : Schema.team) : File.team :=
  {| File.name := Some (Schema.name t);
     File.abbr := Some (Schema.abbr t);
     File.logo := Some (Schema.logo t) |}.

Definition to_file_game (p : Schema.published) : File.game :=
  {| File.home := Some (to_file_team (Schema.home p));
     File.away := Some (to_file_team (Schema.away p));
     File.final := Some (Schema.final p);
     File.recap_2s := Some (Schema.recap_2s p);
     File.one_stat := Some (Schema.one_stat p);
     File.why_it_mattered := Some (Schema.why_it_mattered p);
     File.tags := Some (Schema.tags p) |}.

Definition to_file_upcoming (u : Draft.upcoming) : File.upcoming :=
  {| File.when_ := Some (Draft.when_ u);
     File.match_ := Some (Draft.match_ u);
     File.hook := Some (Draft.hook u) |}.

Definition to_file (doc : Draft.document) : File.data :=
  {| File.meta :=
       Some {| File.week := Some (Draft.week (Draft.meta doc));
               File.generated_at := Some (Draft.generated_at (Draft.meta doc)) |};
     File.top_games := Some (to_file_game <$> Draft.top_games doc);
     File.quick_opinions := Some (Draft.quick_opinions doc);
     File.whats_next := Some (to_file_upcoming <$> Draft.whats_next doc) |}.

(** A page with its three containers, empty, and no [#updated] text. *)
Definition blank_page {element : Type} : Render.page (element := element) :=
  {| Render.top_games_box := Some []; Render.opinions_box := Some [];
     Render.whats_next_box := Some []; Render.title := "Five-Minute Football";
     Render.updated := Some "" |}.

Definition sample_file_game : File.game :=
  to_file_game (mapToSchema (generateRecap Draw0 (annotate fresno_game)) ∅).

(** ** The week selector (populateWeekSelector) *)

(** The values of [i] in [for (let i = n; i >= 1; i--)]. *)
Fixpoint countdown (n : nat) : list Z :=
  match n with
  | O => []
  | S k => Z.of_nat (S k) :: countdown k
  end.

(** The options appended to [#week-select], as pairs of [value] and
    [textContent], when the element exists; [today] is the [diffTime]
    of [State.resolveWeekNumber()]. *)
Definition populateWeekSelector (today : Z) : list (Z * string) :=
  let currentWeek := State.resolveWeekNumber today in
  ((λ i, (i, "Week " +:+ pretty i)) <$> countdown (Z.to_nat currentWeek))
  ++ [(0, "Example")].

(** ** The run on payloads that make it throw

    [generateDraft] again, on payloads outside the typed ones: an OK
    body that is JSON but not an array, an array with a [null] element,
    a game object without one of its team names. Each of them raises a
    TypeError ([games.filter] is not a function, [g.completed] of
    [null], [game.home_team.substring] of [undefined]) that the
    top-level [catch] turns into [process.exit(1)]. The keys that a
    game object has are typed as before. *)
Module Raw.

(** A game object and whether it has its [home_team] and [away_team]
    keys; a name that is missing is not read from [fields]. *)
Record game_object : Type := GameObject {
  fields : game;
  has_home_team : bool;
  has_away_team : bool
}.

(** What [await gamesResponse.json()] followed by [games.length] gives:
    an exception (no JSON, or [null]), a value that is not an array, or
    an array whose elements are game objects or [null]. *)
Inductive body : Type :=
| Throws
| NotArray
| Items (items : list (option game_object)).

Inductive fetched : Type :=
| Rejects
| Responds (ok : bool) (status : Z) (b : body).

Record world : Type := World {
  net : string → string → fetched;
  random : nat → draw;
  now : string
}.

(** The value that [fetchGames] returns. *)
Inductive fetched_value : Type :=
| ValueNotArray
| ValueArray (items : list (option game_object)).

Definition complete (g : game) : option game_object :=
  Some {| fields := g; has_home_team := true; has_away_team := true |}.

Definition fetchGames (cfg : config) (n : string → string → fetched)
    (season week : Z) (scope : string) : fetched_value :=
  match API_KEY cfg with
  | None | Some EmptyString => ValueArray (complete <$> getStubGames)
  | Some key =>
      match n (gamesUrl season week) key with
      | Rejects => ValueArray (complete <$> getStubGames)
      | Responds false _ _ => ValueArray (complete <$> getStubGames)
      | Responds true _ Throws => ValueArray (complete <$> getStubGames)
      | Responds true _ NotArray => ValueNotArray
      | Responds true _ (Items games) => ValueArray games
      end
  end.

(** The elements of the array when none is [null]; the callback of
    [filter] throws on a [null] element. *)
Fixpoint objects (items : list (option game_object))
    : option (list game_object) :=
  match items with
  | [] => Some []
  | None :: _ => None
  | Some g :: rest =>
      match objects rest with
      | Some gs => Some (g :: gs)
      | None => None
      end
  end.

Definition annotate_object (g : game_object) : game_object :=
  {| fields := annotate (fields g); has_home_team := has_home_team g;
     has_away_team := has_away_team g |}.

Definition rankGames (games : list game_object) : list game_object :=
  let completed := filter (λ g, eligible (fields g) = true) games in
  take 5 (Js.sort (λ a b, rank_key (fields b) - rank_key (fields a))
            (annotate_object <$> completed)).

(** [mapToSchema] does not throw on the game. *)
Definition names_present (g : game_object) : bool :=
  has_home_team g && has_away_team g.

Definition generateDraft (cfg : config) (w : world) : outcome :=
  match fetchGames cfg (net w) (SEASON cfg) (WEEK cfg) (SCOPE cfg) with
  | ValueNotArray => Exit 1           (* the guard, or a TypeError *)
  | ValueArray [] => Exit 1           (* the guard *)
  | ValueArray items =>
      match objects items with
      | None => Exit 1                (* TypeError in rankGames *)
      | Some games =>
          let ranked := rankGames games in
          if forallb names_present ranked then
            let processedGames :=
              imap (λ i g, mapToSchema (generateRecap (random w i) (fields g)) ∅)
                ranked in
            let draft :=
              {| Draft.meta :=
                   {| Draft.season := SEASON cfg;
                      Draft.week := WEEK cfg;
                      Draft.scope := SCOPE cfg;
                      Draft.generated_at := now w;
                      Draft.sources := ["cfbd:v1 games/box; rankings/v1"] |};
                 Draft.top_games := processedGames;
                 Draft.quick_opinions := generateOpinions (fields <$> ranked);
                 Draft.whats_next := generateWhatsNext (WEEK cfg) |} in
            let weekStr := Js.padStart2 (WEEK cfg) in
            Written [".."; "data"; SCOPE cfg; "week_" +:+ weekStr +:+ ".json"]
              draft
          else Exit 1                 (* TypeError in mapToSchema *)
      end
  end.

End Raw.



(** * Properties *)

(** ** The sort *)

Section SortByKey.
Context {A : Type} (key : A → Z).

Lemma insert_sorted_length x l :
  length (Js.insert_sorted (by_key key) x l) = S (length l).
Proof.
  induction l as [|y r IH]; simpl; [done|].
  destruct (0 <? (by_key key) x y); simpl; [by rewrite IH|done].
Qed.

Lemma sort_length l : length (Js.sort (by_key key) l) = length l.
Proof.
  induction l as [|x r IH]; simpl; [done|].
  by rewrite insert_sorted_length, IH.
Qed.

Lemma insert_sorted_Permutation x l : Js.insert_sorted (by_key key) x l ≡ₚ x :: l.
Proof.
  induction l as [|y r IH]; simpl; [done|].
  destruct (0 <? (by_key key) x y); [|done].
  rewrite IH. apply Permutation_swap.
Qed.

Lemma sort_Permutation l : Js.sort (by_key key) l ≡ₚ l.
Proof.
  induction l as [|x r IH]; simpl; [done|].
  by rewrite insert_sorted_Permutation, IH.
Qed.

(** Elements stepped over have a strictly larger key, so the elements
    of any one key keep [x] in front. *)
Lemma insert_sorted_filter_key k x l :
  filter (λ a, key a = k) (Js.insert_sorted (by_key key) x l)
  = filter (λ a, key a = k) (x :: l).
Proof.
  induction l as [|y r IH]; simpl; [done|].
  destruct (0 <? (by_key key) x y) eqn:E; [|done].
  apply Z.ltb_lt in E. unfold by_key in E.
  rewrite !filter_cons in *.
  destruct (decide (key y = k)) as [Hy|Hy];
    destruct (decide (key x = k)) as [Hx|Hx]; try lia;
    rewrite IH; done.
Qed.

(** Stability: for every key, the elements of that key come out in the
    order they went in. *)
Lemma sort_filter_key k l :
  filter (λ a, key a = k) (Js.sort (by_key key) l) = filter (λ a, key a = k) l.
Proof.
  induction l as [|x r IH]; simpl; [done|].
  rewrite insert_sorted_filter_key, !filter_cons, IH. done.
Qed.

Lemma insert_sorted_descending x l :
  descending key l → descending key (Js.insert_sorted (by_key key) x l).
Proof.
  unfold descending. induction 1 as [|y r Hr IH Hy]; simpl.
  - repeat constructor.
  - destruct (0 <? (by_key key) x y) eqn:E; unfold by_key in E.
    + apply Z.ltb_lt in E. constructor; [done|].
      rewrite insert_sorted_Permutation. constructor; [lia|done].
    + apply Z.ltb_ge in E. constructor; [by constructor|].
      constructor; [lia|].
      eapply Forall_impl; [exact Hy|]. simpl. intros; lia.
Qed.

Lemma sort_descending l : descending key (Js.sort (by_key key) l).
Proof.
  induction l as [|x r IH]; simpl; [constructor|].
  by apply insert_sorted_descending.
Qed.

End SortByKey.

Lemma filter_take_prefix {A} (P : A → Prop) `{∀ x, Decision (P x)} n (l : list A) :
  filter P (take n l) `prefix_of` filter P l.
Proof.
  exists (filter P (drop n l)).
  by rewrite <- filter_app, take_drop.
Qed.

(** ** The ranker, record by record *)

Lemma rankGames_unfold games :
  rankGames games = take 5 (Js.sort (by_key rank_key) (eligible_annotated games)).
Proof. reflexivity. Qed.

Lemma elem_of_eligible_annotated r games :
  r ∈ eligible_annotated games ↔
  ∃ g, g ∈ games ∧ eligible g = true ∧ r = annotate g.
Proof.
  unfold eligible_annotated. rewrite list_elem_of_fmap. split.
  - intros (g & -> & Hg). apply list_elem_of_filter in Hg as [? ?]. eauto.
  - intros (g & ? & ? & ->). exists g. split; [done|].
    by apply list_elem_of_filter.
Qed.

(** Every record that [rankGames] returns is an eligible record of the
    payload, annotated. *)
Lemma elem_of_rankGames r games :
  r ∈ rankGames games →
  ∃ g, g ∈ games ∧ eligible g = true ∧ r = annotate g.
Proof.
  rewrite rankGames_unfold. intros Hr.
  apply subseteq_take in Hr. rewrite sort_Permutation in Hr.
  by apply elem_of_eligible_annotated.
Qed.

(** The accumulated score is the sum of the separate bonuses, on the
    scores as [annotate] reads them. *)
Lemma annotate_rank_score g :
  let d := Z.abs (Js.or_zero (home_points g) - Js.or_zero (away_points g)) in
  let t := Js.or_zero (home_points g) + Js.or_zero (away_points g) in
  _rankScore (annotate g)
  = Some (spec_close_bonus d + spec_shootout_bonus t
          + spec_conference_bonus (Js.truthy (conference_game g))
          + spec_overtime_bonus (periods g)).
Proof.
  unfold annotate, spec_close_bonus, spec_shootout_bonus,
    spec_conference_bonus, spec_overtime_bonus, bump; simpl.
  f_equal.
  destruct (periods g) as [p|]; simpl;
    repeat match goal with
           | |- context [if ?c then _ else _] => destruct c eqn:?
           end; lia.
Qed.

Lemma annotate_rank_score_nonneg g : 0 ≤ rank_key (annotate g).
Proof.
  unfold rank_key. rewrite annotate_rank_score. simpl.
  unfold spec_close_bonus, spec_shootout_bonus, spec_conference_bonus,
    spec_overtime_bonus.
  destruct (periods g) as [p|];
    repeat match goal with
           | |- context [if ?c then _ else _] => destruct c
           end; lia.
Qed.

(** A record whose score keys are absent passes the filter: [undefined]
    is not [null]. *)
Lemma eligible_absent_scores h a :
  eligible (payload h a Js.PAbsent Js.PAbsent true 4 false) = true.
Proof. reflexivity. Qed.

Lemma en_dash_literal : en_dash = "–".
Proof. reflexivity. Qed.

(** C2 as stated fails: a completed 21-21 game is eligible and its
    winner side is not [home]. *)
Lemma tie_winner_not_home :
  let g := payload "A" "B" (Js.PNum 21) (Js.PNum 21) true 4 false in
  rankGames [g] = [annotate g] ∧ _winner (annotate g) ≠ Some home.
Proof. split; [reflexivity|discriminate]. Qed.

(** C2, amended: for every game record with equal home and away scores
    the winner side computed by the ranker is [away]; the side is [home]
    only when the home score is strictly greater than the away score,
    and [away] in every other case. This holds of the annotation step
    and of every record that the ranker returns. *)
Theorem tie_winner_is_away (n : Z) :
  (∀ g, home_points g = Js.PNum n → away_points g = Js.PNum n →
        _winner (annotate g) = Some away)
  ∧ (∀ games r, r ∈ rankGames games →
        home_points r = Js.PNum n → away_points r = Js.PNum n →
        _winner r = Some away)
  ∧ (∀ g h a, home_points g = Js.PNum h → away_points g = Js.PNum a →
        (_winner (annotate g) = Some home ↔ a < h)
        ∧ (_winner (annotate g) = Some away ↔ h ≤ a))
  ∧ (∀ games r h a, r ∈ rankGames games →
        home_points r = Js.PNum h → away_points r = Js.PNum a →
        (_winner r = Some home ↔ a < h)
        ∧ (_winner r = Some away ↔ h ≤ a)).
Proof.
  assert (∀ g h a, home_points g = Js.PNum h → away_points g = Js.PNum a →
            (_winner (annotate g) = Some home ↔ a < h)
            ∧ (_winner (annotate g) = Some away ↔ h ≤ a)) as Hstep.
  { intros g h a Hh Ha. unfold annotate; simpl. rewrite Hh, Ha; simpl.
    destruct (a <? h) eqn:E.
    - apply Z.ltb_lt in E. split; split; intros; try done; lia.
    - apply Z.ltb_ge in E. split; split; intros; try done; lia. }
  split_and!.
  - intros g Hh Ha. apply (Hstep g n n Hh Ha). lia.
  - intros games r Hr Hh Ha.
    apply elem_of_rankGames in Hr as (g & _ & _ & ->).
    apply (Hstep g n n Hh Ha). lia.
  - exact Hstep.
  - intros games r h a Hr Hh Ha.
    apply elem_of_rankGames in Hr as (g & _ & _ & ->).
    by apply Hstep.
Qed.

Lemma tie_winner_is_away_witness :
  _winner (annotate tied_game) = Some away
  ∧ _winner (annotate first_close) = Some home.
Proof.
  destruct (tie_winner_is_away 21) as (Htie & _ & Hside & _).
  split.
  - apply (Htie tied_game); reflexivity.
  - apply (Hside first_close 28 24); [reflexivity|reflexivity|lia].
Defined.

(** C3 as stated fails: the scenario game gets rank score 6, not 10. *)
Lemma scenario_rank_score_not_10 :
  _rankScore <$> rankGames [scenario_game] ≠ [Some 10].
Proof. vm_compute. discriminate. Qed.

(** C3, amended: the scenario game (28-24, completed, 4 periods, not a
    conference game) has score differential 4 and total 52, and gets
    rank score 6: only the +6 bonus fires, since 4 > 3; the mapper
    renders [final] as the string 28, en-dash (bytes E2 80 93), 24. *)
Theorem scenario_rank_score_and_final :
  rankGames [scenario_game] = [annotate scenario_game]
  ∧ _scoreDiff (annotate scenario_game) = Some 4
  ∧ _totalPoints (annotate scenario_game) = Some 52
  ∧ _rankScore (annotate scenario_game) = Some 6
  ∧ (∀ r teamData,
       Schema.final (mapToSchema (generateRecap r (annotate scenario_game)) teamData)
       = "28–24")
  ∧ "28–24"
    = String "2" (String "8"
        (String (ascii_of_N 226) (String (ascii_of_N 128) (String (ascii_of_N 147)
           (String "2" (String "4" "")))))).
Proof. repeat split. Qed.

(** C4 as stated fails: a completed record with a negative score is
    retained by the filter. *)
Lemma negative_score_is_eligible :
  let g := payload "A" "B" (Js.PNum (-1)) (Js.PNum 3) true 4 false in
  spec_eligible g = false ∧ eligible g = true
  ∧ rankGames [g] = [annotate g].
Proof. repeat split. Qed.

(** C4, amended: among the records whose two score keys are present, the
    filter admits exactly those with [completed] true and neither score
    [null]; a record with [completed] false or a [null] score is excluded
    and every other one is retained, whatever the sign of its scores. *)
Theorem eligible_iff_completed_and_scored (g : game) :
  home_points g ≠ Js.PAbsent → away_points g ≠ Js.PAbsent →
  (eligible g = true ↔
   completed g = Some true
   ∧ ∃ h a, home_points g = Js.PNum h ∧ away_points g = Js.PNum a)
  ∧ (∀ games : list game, g ∈ filter (λ x, eligible x = true) games ↔
       g ∈ games ∧ completed g = Some true
       ∧ home_points g ≠ Js.PNull ∧ away_points g ≠ Js.PNull).
Proof.
  intros Hh Ha.
  assert (eligible g = true ↔
          completed g = Some true
          ∧ home_points g ≠ Js.PNull ∧ away_points g ≠ Js.PNull) as Hnull.
  { unfold eligible.
    destruct (completed g) as [[]|], (home_points g), (away_points g);
      simpl; intuition congruence. }
  split.
  - rewrite Hnull.
    destruct (home_points g) as [| |h], (away_points g) as [| |a];
      try done; split.
    all: try (intros (_ & ? & ?); congruence).
    all: try (intros (_ & ? & ? & ? & ?); congruence).
    + intros (? & _). eauto.
    + intros (? & _). repeat split; congruence.
  - intros games. rewrite list_elem_of_filter, Hnull. tauto.
Qed.

Lemma eligible_iff_completed_and_scored_witness :
  eligible (payload "A" "B" (Js.PNum (-1)) (Js.PNum 3) true 4 false) = true.
Proof.
  apply (eligible_iff_completed_and_scored
           (payload "A" "B" (Js.PNum (-1)) (Js.PNum 3) true 4 false));
    [discriminate|discriminate|].
  split; [reflexivity|].
  exists (-1), 3. split; reflexivity.
Defined.

(** C5: for every eligible record with scores [h] and [a], the rank score
    is the sum of the independent bonuses: on the differential +6 if at
    most 8, +4 more if at most 3, +3 more if 0 (13 for a tie); on the
    total +3 above 70 and +2 more above 80; +1 for a conference game; and
    for overtime +4 at exactly 5 periods or +6 above 5, never both. *)
Theorem rank_score_sums_bonuses (g : game) (h a : Z) :
  eligible g = true →
  home_points g = Js.PNum h → away_points g = Js.PNum a →
  _scoreDiff (annotate g) = Some (Z.abs (h - a))
  ∧ _totalPoints (annotate g) = Some (h + a)
  ∧ _rankScore (annotate g)
    = Some (spec_close_bonus (Z.abs (h - a)) + spec_shootout_bonus (h + a)
            + spec_conference_bonus (Js.truthy (conference_game g))
            + spec_overtime_bonus (periods g))
  ∧ (h = a → spec_close_bonus (Z.abs (h - a)) = 13)
  ∧ (spec_overtime_bonus (periods g) = 4 ↔ periods g = Some 5)
  ∧ (spec_overtime_bonus (periods g) = 6 ↔ ∃ p, periods g = Some p ∧ 5 < p)
  ∧ Js.strict_eq (periods g) 5 && Js.gt (periods g) 5 = false.
Proof.
  intros _ Hh Ha. split_and!.
  - unfold annotate; simpl. by rewrite Hh, Ha.
  - unfold annotate; simpl. by rewrite Hh, Ha.
  - rewrite annotate_rank_score. simpl. by rewrite Hh, Ha.
  - intros ->. by rewrite Z.sub_diag.
  - unfold spec_overtime_bonus. destruct (periods g) as [p|]; [|done].
    destruct (p =? 5) eqn:E5; [apply Z.eqb_eq in E5; by subst|].
    apply Z.eqb_neq in E5.
    destruct (5 <? p); split; intros; try discriminate; congruence.
  - unfold spec_overtime_bonus. destruct (periods g) as [p|].
    + destruct (p =? 5) eqn:E5.
      * apply Z.eqb_eq in E5. subst. split; [done|].
        intros (p & [= <-] & ?). lia.
      * destruct (5 <? p) eqn:E6.
        -- apply Z.ltb_lt in E6. split; eauto.
        -- apply Z.ltb_ge in E6. split; [done|].
           intros (q & [= <-] & ?). lia.
    + split; [done|]. intros (p & ? & ?). done.
  - destruct (periods g) as [p|]; simpl; [|done].
    destruct (p =? 5) eqn:E5; [|done].
    apply Z.eqb_eq in E5. by subst.
Qed.

Lemma rank_score_sums_bonuses_witness :
  _rankScore (annotate (payload "A" "B" (Js.PNum 35) (Js.PNum 35) true 5 true))
  = Some 18.
Proof.
  destruct (rank_score_sums_bonuses
              (payload "A" "B" (Js.PNum 35) (Js.PNum 35) true 5 true) 35 35
              eq_refl eq_refl eq_refl) as (_ & _ & H & _).
  exact H.
Defined.

(** ** The ranker on a whole payload *)

Lemma rankGames_descending games : descending rank_key (rankGames games).
Proof.
  rewrite rankGames_unfold.
  pose proof (sort_descending rank_key (eligible_annotated games)) as H.
  rewrite <- (take_drop 5 (Js.sort _ _)) in H.
  unfold descending in *. by apply StronglySorted_app_1_l in H.
Qed.

Lemma rankGames_no_eligible games :
  filter (λ g, eligible g = true) games = [] → rankGames games = [].
Proof.
  intros Hnil. rewrite rankGames_unfold. unfold eligible_annotated.
  by rewrite Hnil.
Qed.



(** ** Stability *)

Lemma filter_eq_app_cons {A} (P : A → Prop) `{∀ x, Decision (P x)}
    (l a b : list A) (x : A) :
  filter P l = a ++ x :: b →
  ∃ l1 l2, l = l1 ++ x :: l2 ∧ filter P l1 = a ∧ filter P l2 = b.
Proof.
  revert a. induction l as [|y r IH]; intros a Hf.
  - by destruct a.
  - rewrite filter_cons in Hf. destruct (decide (P y)) as [Hy|Hy].
    + destruct a as [|a0 a']; simpl in Hf; injection Hf as -> Hf.
      * subst b. by exists [], r.
      * destruct (IH a' Hf) as (l1 & l2 & -> & <- & <-).
        exists (a0 :: l1), l2. split_and!; [done| |done].
        by rewrite filter_cons_True.
    + destruct (IH a Hf) as (l1 & l2 & -> & <- & <-).
      exists (y :: l1), l2. split_and!; [done| |done].
      by rewrite filter_cons_False.
Qed.

Lemma rankGames_scored_prefix k games :
  scored k (rankGames games) `prefix_of` scored k (eligible_annotated games).
Proof.
  unfold scored. rewrite rankGames_unfold.
  rewrite <- (sort_filter_key rank_key k (eligible_annotated games)).
  apply filter_take_prefix.
Qed.

(** C6: the sort of the ranker is stable. For every rank score [k], the
    records of score [k] in the output are, in the same order, the first
    records of score [k] of the eligible input; and whenever [x] stands
    before [y] in the output with equal rank scores, [x] stands before
    [y] in the eligible input. *)
Theorem rankGames_stable (games : list game) :
  (∀ k, scored k (rankGames games)
        `prefix_of` scored k (eligible_annotated games))
  ∧ (∀ l1 l2 l3 x y,
       rankGames games = l1 ++ x :: l2 ++ y :: l3 →
       rank_key x = rank_key y →
       ∃ m1 m2 m3, eligible_annotated games = m1 ++ x :: m2 ++ y :: m3).
Proof.
  split; [intros k; apply rankGames_scored_prefix|].
  intros l1 l2 l3 x y Hout Hxy.
  destruct (rankGames_scored_prefix (rank_key x) games) as [rest Hpre].
  rewrite Hout in Hpre. unfold scored in Hpre.
  rewrite filter_app, filter_cons_True, filter_app, filter_cons_True in Hpre
    by done.
  rewrite <- app_assoc in Hpre. simpl in Hpre.
  rewrite <- app_assoc in Hpre. simpl in Hpre.
  apply filter_eq_app_cons in Hpre as (m1 & m' & Hm & _ & Hm').
  apply filter_eq_app_cons in Hm' as (m2 & m3 & -> & _ & _).
  by exists m1, m2, m3.
Qed.

Lemma rankGames_stable_witness :
  ∃ m1 m2 m3,
    eligible_annotated [first_close; tied_game; second_close]
    = m1 ++ annotate first_close :: m2 ++ annotate second_close :: m3.
Proof.
  destruct (rankGames_stable [first_close; tied_game; second_close]) as [_ H].
  apply (H [annotate tied_game] [] []); reflexivity.
Defined.

(** ** The schema mapper *)

Lemma lookup_abbr_None (teamData : gmap string TeamData.entry) n :
  teamData !! n = None → lookup_abbr teamData n = None.
Proof. unfold lookup_abbr. by intros ->. Qed.

Lemma lookup_logo_None (teamData : gmap string TeamData.entry) n :
  teamData !! n = None → lookup_logo teamData n = None.
Proof. unfold lookup_logo. by intros ->. Qed.

Lemma mapToSchema_no_entry_home g (teamData : gmap string TeamData.entry) :
  teamData !! home_team g = None →
  Schema.abbr (Schema.home (mapToSchema g teamData))
  = Js.toUpperCase (Js.substring0 4 (home_team g))
  ∧ Schema.logo (Schema.home (mapToSchema g teamData)) = "".
Proof. intros Hn. simpl. by rewrite lookup_abbr_None, lookup_logo_None. Qed.

Lemma mapToSchema_no_entry_away g (teamData : gmap string TeamData.entry) :
  teamData !! away_team g = None →
  Schema.abbr (Schema.away (mapToSchema g teamData))
  = Js.toUpperCase (Js.substring0 4 (away_team g))
  ∧ Schema.logo (Schema.away (mapToSchema g teamData)) = "".
Proof. intros Hn. simpl. by rewrite lookup_abbr_None, lookup_logo_None. Qed.

(** C7: when the lookup has no entry for a team name, the published
    abbreviation is the upper-cased first 4 characters of the name
    (FRES for Fresno State) and the logo is empty; [final] is the home
    score, an en-dash and the away score; a missing [home_id] or
    [away_id] becomes 0 and a missing game [id] the empty string. *)
Theorem mapToSchema_fallbacks (g : game) (teamData : gmap string TeamData.entry) :
  (teamData !! home_team g = None →
   Schema.abbr (Schema.home (mapToSchema g teamData))
   = Js.toUpperCase (Js.substring0 4 (home_team g))
   ∧ Schema.logo (Schema.home (mapToSchema g teamData)) = "")
  ∧ (teamData !! away_team g = None →
     Schema.abbr (Schema.away (mapToSchema g teamData))
     = Js.toUpperCase (Js.substring0 4 (away_team g))
     ∧ Schema.logo (Schema.away (mapToSchema g teamData)) = "")
  ∧ (∀ h a, home_points g = Js.PNum h → away_points g = Js.PNum a →
       Schema.final (mapToSchema g teamData) = pretty h +:+ "–" +:+ pretty a)
  ∧ (home_id g = None → Schema.home_id (Schema.ids (mapToSchema g teamData)) = 0)
  ∧ (away_id g = None → Schema.away_id (Schema.ids (mapToSchema g teamData)) = 0)
  ∧ (id g = None → Schema.game_id (Schema.ids (mapToSchema g teamData)) = "")
  ∧ Js.toUpperCase (Js.substring0 4 "Fresno State") = "FRES".
Proof.
  split_and!.
  - apply mapToSchema_no_entry_home.
  - apply mapToSchema_no_entry_away.
  - intros h a Hh Ha. simpl. by rewrite Hh, Ha.
  - intros Hn. simpl. by rewrite Hn.
  - intros Hn. simpl. by rewrite Hn.
  - intros Hn. simpl. by rewrite Hn.
  - reflexivity.
Qed.

Lemma mapToSchema_fallbacks_witness :
  Schema.abbr (Schema.home (mapToSchema fresno_game ∅)) = "FRES"
  ∧ Schema.logo (Schema.home (mapToSchema fresno_game ∅)) = ""
  ∧ Schema.abbr (Schema.away (mapToSchema fresno_game ∅)) = "GEOR"
  ∧ Schema.logo (Schema.away (mapToSchema fresno_game ∅)) = ""
  ∧ Schema.final (mapToSchema fresno_game ∅) = "28–24"
  ∧ Schema.home_id (Schema.ids (mapToSchema fresno_game ∅)) = 0
  ∧ Schema.away_id (Schema.ids (mapToSchema fresno_game ∅)) = 0
  ∧ Schema.game_id (Schema.ids (mapToSchema fresno_game ∅)) = "".
Proof.
  destruct (mapToSchema_fallbacks fresno_game ∅)
    as (Hh & Ha & Hf & Hhi & Hai & Hgi & _).
  destruct (Hh (lookup_empty _)) as [Habbr Hlogo].
  destruct (Ha (lookup_empty _)) as [Habbr' Hlogo'].
  split_and!.
  - exact Habbr.
  - exact Hlogo.
  - exact Habbr'.
  - exact Hlogo'.
  - exact (Hf 28 24 eq_refl eq_refl).
  - exact (Hhi eq_refl).
  - exact (Hai eq_refl).
  - exact (Hgi eq_refl).
Defined.

(** ** The run *)

Lemma generateRecap_teams r g :
  home_team (generateRecap r g) = home_team g
  ∧ away_team (generateRecap r g) = away_team g.
Proof. by destruct r. Qed.

Lemma mapToSchema_empty_fallback g :
  fallback_team (Schema.home (mapToSchema g ∅))
  ∧ fallback_team (Schema.away (mapToSchema g ∅)).
Proof.
  unfold fallback_team.
  destruct (mapToSchema_no_entry_home g ∅ (lookup_empty _)).
  destruct (mapToSchema_no_entry_away g ∅ (lookup_empty _)).
  by repeat split.
Qed.

(** A run ends in [process.exit(1)] exactly when the games in hand after
    [fetchGames] are the empty array; otherwise the document is
    written, with the mapped ranked games as [top_games]. *)
Lemma generateDraft_cases cfg w :
  let games := fetchGames cfg (net w) (SEASON cfg) (WEEK cfg) (SCOPE cfg) in
  (games = [] ∧ generateDraft cfg w = Exit 1)
  ∨ (games ≠ []
     ∧ ∃ segs doc,
         generateDraft cfg w = Written segs doc
         ∧ Draft.top_games doc
           = imap (λ i g, mapToSchema (generateRecap (random w i) g) ∅)
               (rankGames games)).
Proof.
  unfold generateDraft.
  destruct (fetchGames _ _ _ _ _) as [|g0 rest]; simpl.
  - by left.
  - right. split; [done|]. by eexists _, _.
Qed.

(** The guard of [generateDraft] looks at the fetched array, not at the
    ranked one: a non-empty payload without any eligible game still
    ends in a written document, whose [top_games] is empty. *)
Lemma generateDraft_without_eligible cfg w :
  let games := fetchGames cfg (net w) (SEASON cfg) (WEEK cfg) (SCOPE cfg) in
  games ≠ [] → filter (λ g, eligible g = true) games = [] →
  ∃ segs doc, generateDraft cfg w = Written segs doc
              ∧ Draft.top_games doc = [].
Proof.
  intros games Hne Hnil.
  destruct (generateDraft_cases cfg w) as [[Hg _]|(_ & segs & doc & Hrun & Htop)].
  - done.
  - exists segs, doc. split; [done|]. rewrite Htop.
    fold games. by rewrite (rankGames_no_eligible games Hnil).
Qed.

(** C1, on the code: the provider answers with one scheduled game that
    is not completed and has [null] scores. No record is eligible, and
    the run does not exit: it writes a document with empty [top_games]. *)
Theorem unplayed_week_is_written :
  filter (λ g, eligible g = true) [unplayed_game] = []
  ∧ generateDraft sample_cfg (answering [unplayed_game])
    = Written [".."; "data"; "cfb"; "week_01.json"]
        {| Draft.meta :=
             {| Draft.season := 2025; Draft.week := 1; Draft.scope := "cfb";
                Draft.generated_at := "2025-09-01T00:00:00.000Z";
                Draft.sources := ["cfbd:v1 games/box; rankings/v1"] |};
           Draft.top_games := [];
           Draft.quick_opinions := generateOpinions [];
           Draft.whats_next := generateWhatsNext 1 |}.
Proof. split; reflexivity. Qed.

(** C9: when the upstream fetch fails (no credential, a transport
    error, or a response that is not OK), [fetchGames] returns the stub
    data set of one record and the run writes a document, whose
    [top_games] is that record ranked and mapped; the run does not exit. *)
Theorem fetch_failure_uses_stub (cfg : config) (w : world) :
  upstream_fails cfg (net w) (SEASON cfg) (WEEK cfg) = true →
  fetchGames cfg (net w) (SEASON cfg) (WEEK cfg) (SCOPE cfg) = getStubGames
  ∧ length getStubGames = 1%nat
  ∧ ∃ segs doc,
      generateDraft cfg w = Written segs doc
      ∧ Draft.top_games doc
        = (λ g, mapToSchema (generateRecap (random w 0) (annotate g)) ∅)
            <$> getStubGames.
Proof.
  intros Hfail.
  assert (fetchGames cfg (net w) (SEASON cfg) (WEEK cfg) (SCOPE cfg)
          = getStubGames) as Hstub.
  { unfold upstream_fails in Hfail. unfold fetchGames.
    destruct (API_KEY cfg) as [[|c key]|]; [done| |done].
    destruct (net w _ _) as [|[] status b]; [done|discriminate|done]. }
  split_and!; [done|done|].
  destruct (generateDraft_cases cfg w) as [[Hg _]|(_ & segs & doc & Hrun & Htop)].
  - rewrite Hstub in Hg. discriminate.
  - exists segs, doc. split; [done|]. rewrite Htop, Hstub. reflexivity.
Qed.

Lemma fetch_failure_uses_stub_witness :
  fetchGames without_key (net (answering [])) 2025 1 "cfb" = getStubGames.
Proof.
  destruct (fetch_failure_uses_stub without_key (answering []) eq_refl)
    as (H & _).
  exact H.
Defined.

(** C10: in every run that produces a document, the mapper is called
    with the empty lookup: [top_games] is the ranked games mapped with
    [{}], so every published game has, for home and away, the
    upper-cased first 4 characters of the team name as abbreviation and
    the empty string as logo. *)
Theorem written_games_use_fallbacks (cfg : config) (w : world)
    (segs : list string) (doc : Draft.document) :
  generateDraft cfg w = Written segs doc →
  (∃ ranked,
     Draft.top_games doc
     = imap (λ i g, mapToSchema (generateRecap (random w i) g) ∅) ranked)
  ∧ Forall (λ p, fallback_team (Schema.home p) ∧ fallback_team (Schema.away p))
      (Draft.top_games doc).
Proof.
  intros Hrun.
  destruct (generateDraft_cases cfg w)
    as [[_ Hexit]|(_ & segs' & doc' & Hrun' & Htop)].
  - congruence.
  - rewrite Hrun in Hrun'. injection Hrun' as <- <-.
    split; [eauto|]. rewrite Htop.
    apply Forall_lookup. intros i p Hp.
    rewrite list_lookup_imap in Hp.
    destruct (rankGames _ !! i) as [g|]; simplify_eq/=.
    apply mapToSchema_empty_fallback.
Qed.

Lemma written_games_use_fallbacks_witness :
  ∃ segs doc,
    generateDraft sample_cfg (answering [fresno_game]) = Written segs doc
    ∧ Forall (λ p, fallback_team (Schema.home p) ∧ fallback_team (Schema.away p))
        (Draft.top_games doc).
Proof.
  eexists _, _. split; [reflexivity|].
  eapply proj2, (written_games_use_fallbacks sample_cfg (answering [fresno_game])).
  reflexivity.
Defined.

(** * Further properties of the generator *)

(** ** The ranker keeps the best five *)

(** X1: [rankGames] returns the best five: its output is the first
    [min 5 n] records of the [n] annotated eligible records in
    non-increasing order of rank score; together with the records it
    drops they are exactly the annotated eligible records, and no
    dropped record has a higher rank score than a returned one. *)
Theorem rankGames_keeps_the_best (games : list game) :
  length (rankGames games) = Nat.min 5 (length (eligible_annotated games))
  ∧ descending rank_key (rankGames games)
  ∧ ∃ dropped,
      rankGames games ++ dropped ≡ₚ eligible_annotated games
      ∧ length dropped = (length (eligible_annotated games) - 5)%nat
      ∧ ∀ x y, x ∈ rankGames games → y ∈ dropped → rank_key y ≤ rank_key x.
Proof.
  split_and!.
  - by rewrite rankGames_unfold, length_take, sort_length.
  - apply rankGames_descending.
  - exists (drop 5 (Js.sort (by_key rank_key) (eligible_annotated games))).
    rewrite rankGames_unfold. split_and!.
    + by rewrite take_drop, sort_Permutation.
    + by rewrite length_drop, sort_length.
    + intros x y Hx Hy.
      pose proof (sort_descending rank_key (eligible_annotated games)) as Hs.
      rewrite <- (take_drop 5 (Js.sort _ _)) in Hs. unfold descending in Hs.
      by apply (StronglySorted_app_1_elem_of _ _ _ x y) in Hs.
Qed.

(** X2: every record returned by [rankGames] carries a rank score
    between 0 and 25, and 25 is reached (a tie above 80 points in a
    conference game with more than 5 periods). *)
Theorem rank_score_range (games : list game) (r : game) :
  r ∈ rankGames games →
  (∃ s, _rankScore r = Some s ∧ 0 ≤ s ≤ 25)
  ∧ _rankScore (annotate (payload "A" "B" (Js.PNum 42) (Js.PNum 42) true 6 true))
    = Some 25.
Proof.
  intros Hr. split; [|reflexivity].
  apply elem_of_rankGames in Hr as (g & _ & _ & ->).
  rewrite annotate_rank_score. eexists. split; [reflexivity|].
  unfold spec_close_bonus, spec_shootout_bonus, spec_conference_bonus,
    spec_overtime_bonus.
  destruct (periods g) as [p|];
    repeat match goal with
           | |- context [if ?c then _ else _] => destruct c eqn:?
           end; lia.
Qed.

Lemma rank_score_range_witness :
  ∃ s, _rankScore (annotate scenario_game) = Some s ∧ 0 ≤ s ≤ 25.
Proof.
  apply (rank_score_range [scenario_game] (annotate scenario_game)).
  vm_compute. left.
Defined.

(** X3: the rank score does not depend on which side is home: two games
    with the home and away scores exchanged, and the same periods and
    conference flag, get the same rank score, score differential and
    total. *)
Theorem rank_score_symmetric (g1 g2 : game) :
  home_points g1 = away_points g2 → away_points g1 = home_points g2 →
  periods g1 = periods g2 → conference_game g1 = conference_game g2 →
  _rankScore (annotate g1) = _rankScore (annotate g2)
  ∧ _scoreDiff (annotate g1) = _scoreDiff (annotate g2)
  ∧ _totalPoints (annotate g1) = _totalPoints (annotate g2).
Proof.
  intros Hh Ha Hp Hc.
  assert (Z.abs (Js.or_zero (home_points g1) - Js.or_zero (away_points g1))
          = Z.abs (Js.or_zero (home_points g2) - Js.or_zero (away_points g2)))
    as Hd by (rewrite Hh, Ha; lia).
  assert (Js.or_zero (home_points g1) + Js.or_zero (away_points g1)
          = Js.or_zero (home_points g2) + Js.or_zero (away_points g2))
    as Ht by (rewrite Hh, Ha; lia).
  split_and!.
  - rewrite !annotate_rank_score. simpl. by rewrite Hd, Ht, Hp, Hc.
  - unfold annotate; simpl. by rewrite Hd.
  - unfold annotate; simpl. by rewrite Ht.
Qed.

Lemma rank_score_symmetric_witness :
  _rankScore (annotate first_close) = _rankScore (annotate
    (payload "B" "A" (Js.PNum 24) (Js.PNum 28) true 4 false)).
Proof.
  apply (rank_score_symmetric first_close
           (payload "B" "A" (Js.PNum 24) (Js.PNum 28) true 4 false));
    reflexivity.
Defined.

(** ** Facts on strings *)

Lemma append_cons (x : ascii) (a b : string) :
  String x a +:+ b = String x (a +:+ b).
Proof. reflexivity. Qed.

Lemma append_assoc (a b c : string) : (a +:+ b) +:+ c = a +:+ (b +:+ c).
Proof.
  induction a as [|x a IH]; [done|].
  rewrite !append_cons. by f_equal.
Qed.

Lemma append_empty_r (a : string) : a +:+ "" = a.
Proof.
  induction a as [|x a IH]; [done|].
  rewrite append_cons. by f_equal.
Qed.

Lemma append_nonempty_r (a b : string) : b ≠ "" → a +:+ b ≠ "".
Proof. destruct a; [done|]. rewrite append_cons. discriminate. Qed.

Lemma append_nonempty_l (a b : string) : a ≠ "" → a +:+ b ≠ "".
Proof. destruct a; [done|]. rewrite append_cons. discriminate. Qed.

Lemma length_append (a b : string) :
  String.length (a +:+ b) = (String.length a + String.length b)%nat.
Proof.
  induction a as [|x a IH]; [done|].
  rewrite append_cons. simpl. by rewrite IH.
Qed.

(** ** The recap of a ranked game *)

Lemma generateRecap_one_stat d g :
  one_stat (generateRecap d g)
  = Some (if isOvertime g then Js.show_num (periods g) +:+ " periods total"
          else if isShootout g
               then "Combined " +:+ Js.show_num (_totalPoints g) +:+ " points"
          else if isClose g then Js.show_num (_scoreDiff g) +:+ "-point margin"
          else (if is_home (_winner g) then home_team g else away_team g)
                 +:+ " won by " +:+ Js.show_num (_scoreDiff g)).
Proof. by destruct d. Qed.

Lemma generateRecap_why d g :
  Some (why_it_mattered (generateRecap d g))
  = Some <$> whyOptions g !! (match d with Draw0 => 0 | Draw1 => 1 | Draw2 => 2 end)%nat.
Proof. by destruct d. Qed.

Lemma annotate_flags g :
  isClose (annotate g)
  = (Z.abs (Js.or_zero (home_points g) - Js.or_zero (away_points g)) <=? 8)
  ∧ isShootout (annotate g)
    = (70 <? Js.or_zero (home_points g) + Js.or_zero (away_points g))
  ∧ isOvertime (annotate g) = Js.gt (periods g) 4.
Proof. done. Qed.

(** X4: ranking and recap agree on what kind of game it was. A ranked
    game that the recap treats as overtime has rank score at least 4, one
    it treats as close at least 6, one it treats as a shootout at least
    3; a game that is none of these, which gets the "took control"
    sentence and the "won by" stat, has rank score at most 1. *)
Theorem recap_flags_match_rank_score (g : game) :
  (isOvertime (annotate g) = true → 4 ≤ rank_key (annotate g))
  ∧ (isClose (annotate g) = true → 6 ≤ rank_key (annotate g))
  ∧ (isShootout (annotate g) = true → 3 ≤ rank_key (annotate g))
  ∧ (isOvertime (annotate g) = false → isClose (annotate g) = false →
     isShootout (annotate g) = false →
     rank_key (annotate g) ≤ 1
     ∧ ∀ d, one_stat (generateRecap d (annotate g))
            = Some ((if is_home (_winner (annotate g))
                     then home_team g else away_team g)
                    +:+ " won by " +:+ Js.show_num (_scoreDiff (annotate g)))).
Proof.
  destruct (annotate_flags g) as (Hc & Hs & Ho).
  assert (rank_key (annotate g)
          = spec_close_bonus
              (Z.abs (Js.or_zero (home_points g) - Js.or_zero (away_points g)))
            + spec_shootout_bonus
                (Js.or_zero (home_points g) + Js.or_zero (away_points g))
            + spec_conference_bonus (Js.truthy (conference_game g))
            + spec_overtime_bonus (periods g)) as Hk.
  { unfold rank_key. by rewrite annotate_rank_score. }
  rewrite Hc, Hs, Ho, Hk.
  unfold spec_close_bonus, spec_shootout_bonus, spec_conference_bonus,
    spec_overtime_bonus, Js.gt.
  split_and!.
  - destruct (periods g) as [p|]; [|done]. intros Hp%Z.ltb_lt.
    repeat match goal with
           | |- context [if ?c then _ else _] => destruct c eqn:?
           end; lia.
  - intros Hd. rewrite Hd.
    destruct (periods g) as [p|];
      repeat match goal with
             | |- context [if ?c then _ else _] => destruct c eqn:?
             end; lia.
  - intros Ht. rewrite Ht.
    destruct (periods g) as [p|];
      repeat match goal with
             | |- context [if ?c then _ else _] => destruct c eqn:?
             end; lia.
  - intros Hp Hd Ht. split.
    + rewrite Ht.
      assert ((Z.abs (Js.or_zero (home_points g) - Js.or_zero (away_points g))
               <=? 3) = false) as ->
        by (apply Z.leb_gt; apply Z.leb_gt in Hd; lia).
      assert ((Z.abs (Js.or_zero (home_points g) - Js.or_zero (away_points g))
               =? 0) = false) as ->
        by (apply Z.eqb_neq; apply Z.leb_gt in Hd; lia).
      assert ((80 <? Js.or_zero (home_points g) + Js.or_zero (away_points g))
              = false) as ->
        by (apply Z.ltb_ge; apply Z.ltb_ge in Ht; lia).
      rewrite Hd.
      destruct (periods g) as [p|].
      * apply Z.ltb_ge in Hp.
        assert ((p =? 5) = false) as -> by (apply Z.eqb_neq; lia).
        assert ((5 <? p) = false) as -> by (apply Z.ltb_ge; lia).
        destruct (Js.truthy _); simpl; lia.
      * destruct (Js.truthy _); simpl; lia.
    + intros d. rewrite generateRecap_one_stat.
      destruct (annotate_flags g) as (Hc' & Hs' & Ho').
      unfold Js.gt in Ho'. rewrite Ho', Hp, Hs', Ht, Hc', Hd. done.
Qed.

Lemma recap_flags_match_rank_score_witness :
  6 ≤ rank_key (annotate first_close)
  ∧ rank_key (annotate (payload "A" "B" (Js.PNum 30) (Js.PNum 10) true 4 true)) ≤ 1.
Proof.
  split.
  - destruct (recap_flags_match_rank_score first_close) as (_ & H & _).
    apply H. reflexivity.
  - destruct (recap_flags_match_rank_score
                (payload "A" "B" (Js.PNum 30) (Js.PNum 10) true 4 true))
      as (_ & _ & _ & H).
    apply H; reflexivity.
Defined.

(** X5: a tied game that is neither overtime nor a shootout is recapped
    as a narrow 0-point victory of the away team over the home team,
    with the stat "0-point margin". *)
Theorem tie_recap_names_away_winner (g : game) (n : Z) (d : draw) :
  home_points g = Js.PNum n → away_points g = Js.PNum n →
  n + n ≤ 70 → Js.gt (periods g) 4 = false →
  recap_2s (generateRecap d (annotate g))
  = Some (away_team g +:+ " pulled out a narrow 0-point victory over "
          +:+ home_team g +:+ ". The decisive moments came late in the game.")
  ∧ one_stat (generateRecap d (annotate g)) = Some "0-point margin".
Proof.
  intros Hh Ha Hn Hp.
  assert (generateRecap d (annotate g)
          = generateRecap d (set_rank g (rank_key (annotate g)) 0 (n + n) away))
    as ->.
  { f_equal. unfold annotate; simpl. rewrite Hh, Ha; simpl.
    rewrite Z.sub_diag, Z.ltb_irrefl. done. }
  assert ((70 <? n + n) = false) as Ht by (apply Z.ltb_ge; lia).
  destruct d; unfold generateRecap; simpl; rewrite Hp, Ht; simpl;
    rewrite !append_assoc; done.
Qed.

Lemma tie_recap_names_away_winner_witness :
  one_stat (generateRecap Draw0 (annotate tied_game)) = Some "0-point margin".
Proof.
  apply (tie_recap_names_away_winner tied_game 21 Draw0); try reflexivity.
  vm_compute. discriminate.
Defined.

(** ** Text fields of a published game *)

Lemma generateRecap_text d g :
  ∃ r o y,
    recap_2s (generateRecap d g) = Some r ∧ r ≠ ""
    ∧ one_stat (generateRecap d g) = Some o ∧ o ≠ ""
    ∧ why_it_mattered (generateRecap d g) = Some y ∧ y ≠ "".
Proof.
  unfold generateRecap. do 3 eexists. simpl. split_and!; try reflexivity.
  - apply append_nonempty_r, append_nonempty_l. discriminate.
  - repeat match goal with
           | |- context [if ?c then _ else _] => destruct c
           end;
      repeat (apply append_nonempty_r; try discriminate).
  - destruct d;
      repeat match goal with
             | |- context [if ?c then _ else _] => destruct c
             end; discriminate.
Qed.

Lemma or_string_nonempty (s d : string) : s ≠ "" → Js.or_string (Some s) d = s.
Proof. by destruct s. Qed.

Lemma mapToSchema_text g (teamData : gmap string TeamData.entry) r o y :
  recap_2s g = Some r → r ≠ "" → one_stat g = Some o → o ≠ "" →
  why_it_mattered g = Some y → y ≠ "" →
  Schema.recap_2s (mapToSchema g teamData) = r
  ∧ Schema.one_stat (mapToSchema g teamData) = o
  ∧ Schema.why_it_mattered (mapToSchema g teamData) = y.
Proof.
  intros Hr ? Ho ? Hy ?. unfold mapToSchema; simpl.
  by rewrite Hr, Ho, Hy, !or_string_nonempty.
Qed.

(** X6: in every written document each top game has a non-empty recap,
    stat and rationale: they are the strings set by [generateRecap], the
    empty-string defaults of [mapToSchema] are never used, and the
    rationale is one of the three [whyOptions] of the ranked game. *)
Theorem written_games_have_text (cfg : config) (w : world)
    (segs : list string) (doc : Draft.document) :
  generateDraft cfg w = Written segs doc →
  Forall (λ p, Schema.recap_2s p ≠ "" ∧ Schema.one_stat p ≠ ""
               ∧ Schema.why_it_mattered p ≠ "")
    (Draft.top_games doc)
  ∧ ∀ i p, Draft.top_games doc !! i = Some p →
      ∃ g, rankGames (fetchGames cfg (net w) (SEASON cfg) (WEEK cfg) (SCOPE cfg))
             !! i = Some g
           ∧ recap_2s (generateRecap (random w i) g) = Some (Schema.recap_2s p)
           ∧ one_stat (generateRecap (random w i) g) = Some (Schema.one_stat p)
           ∧ Schema.why_it_mattered p ∈ whyOptions g.
Proof.
  intros Hrun.
  destruct (generateDraft_cases cfg w)
    as [[_ Hexit]|(_ & segs' & doc' & Hrun' & Htop)]; [congruence|].
  rewrite Hrun in Hrun'. injection Hrun' as <- <-.
  assert (∀ i p, Draft.top_games doc !! i = Some p →
            ∃ g, rankGames (fetchGames cfg (net w) (SEASON cfg) (WEEK cfg)
                              (SCOPE cfg)) !! i = Some g
                 ∧ p = mapToSchema (generateRecap (random w i) g) ∅) as Hget.
  { intros i p Hp. rewrite Htop, list_lookup_imap in Hp.
    destruct (rankGames _ !! i) as [g|]; simplify_eq/=. eauto. }
  split.
  - apply Forall_lookup. intros i p Hp.
    destruct (Hget i p Hp) as (g & _ & ->).
    destruct (generateRecap_text (random w i) g)
      as (r & o & y & Hr & ? & Ho & ? & Hy & ?).
    destruct (mapToSchema_text (generateRecap (random w i) g) ∅ r o y)
      as (-> & -> & ->); done.
  - intros i p Hp. destruct (Hget i p Hp) as (g & Hg & ->).
    exists g. split; [done|].
    destruct (generateRecap_text (random w i) g)
      as (r & o & y & Hr & ? & Ho & ? & Hy & ?).
    destruct (mapToSchema_text (generateRecap (random w i) g) ∅ r o y)
      as (-> & -> & ->); try done.
    split_and!; [done|done|].
    pose proof (generateRecap_why (random w i) g) as Hw.
    rewrite Hy in Hw.
    destruct (whyOptions g !! _) as [y'|] eqn:E; simplify_eq/=.
    by eapply list_elem_of_lookup_2.
Qed.

Lemma written_games_have_text_witness :
  ∃ segs doc,
    generateDraft sample_cfg (answering [fresno_game]) = Written segs doc
    ∧ Forall (λ p, Schema.recap_2s p ≠ "" ∧ Schema.one_stat p ≠ ""
                   ∧ Schema.why_it_mattered p ≠ "")
        (Draft.top_games doc).
Proof.
  eexists _, _. split; [reflexivity|].
  eapply proj1, (written_games_have_text sample_cfg (answering [fresno_game])).
  reflexivity.
Defined.

(** ** The mapper with a team entry *)

(** X7: when the lookup has an entry for the home team, its abbreviation
    and logo are published if they are non-empty strings; an entry whose
    abbreviation is missing or empty still gives the upper-cased first 4
    characters of the name, and one whose logo is missing or empty gives
    the empty logo. The same holds for the away team. *)
Theorem mapToSchema_uses_entry (g : game)
    (teamData : gmap string TeamData.entry) (e : TeamData.entry) :
  (teamData !! home_team g = Some e →
   Schema.abbr (Schema.home (mapToSchema g teamData))
   = match TeamData.abbr e with
     | Some (String c s) => String c s
     | _ => Js.toUpperCase (Js.substring0 4 (home_team g))
     end
   ∧ Schema.logo (Schema.home (mapToSchema g teamData))
     = default "" (TeamData.logo e))
  ∧ (teamData !! away_team g = Some e →
     Schema.abbr (Schema.away (mapToSchema g teamData))
     = match TeamData.abbr e with
       | Some (String c s) => String c s
       | _ => Js.toUpperCase (Js.substring0 4 (away_team g))
       end
     ∧ Schema.logo (Schema.away (mapToSchema g teamData))
       = default "" (TeamData.logo e)).
Proof.
  split; intros He; simpl; unfold lookup_abbr, lookup_logo; rewrite He; simpl;
    (split; [by destruct (TeamData.abbr e) as [[|]|]
            |by destruct (TeamData.logo e) as [[|]|]]).
Qed.

Lemma mapToSchema_uses_entry_witness :
  Schema.abbr (Schema.home (mapToSchema fresno_game
     {[ "Fresno State" := {| TeamData.abbr := Some "FRES";
                             TeamData.logo := Some "/logos/fresno.png" |} ]}))
  = "FRES".
Proof.
  destruct (mapToSchema_uses_entry fresno_game
     {[ "Fresno State" := {| TeamData.abbr := Some "FRES";
                             TeamData.logo := Some "/logos/fresno.png" |} ]}
     {| TeamData.abbr := Some "FRES"; TeamData.logo := Some "/logos/fresno.png" |})
    as [H _].
  apply H. apply lookup_singleton_eq.
Defined.

(** ** The fallback abbreviation *)

Lemma upper_char_idemp c : Js.upper_char (Js.upper_char c) = Js.upper_char c.
Proof. destruct c as [[] [] [] [] [] [] [] []]; reflexivity. Qed.

Lemma toUpperCase_idemp s : Js.toUpperCase (Js.toUpperCase s) = Js.toUpperCase s.
Proof.
  induction s as [|c s IH]; simpl; [done|].
  by rewrite upper_char_idemp, IH.
Qed.

Lemma toUpperCase_length s : String.length (Js.toUpperCase s) = String.length s.
Proof. induction s as [|c s IH]; simpl; [done|by rewrite IH]. Qed.

Lemma substring0_length n s :
  String.length (Js.substring0 n s) = Nat.min n (String.length s).
Proof.
  unfold Js.substring0. revert s.
  induction n as [|n IH]; intros [|c s]; simpl; try done.
  by rewrite IH.
Qed.

Lemma upper_char_ascii c :
  (N_of_ascii c <? 128)%N = true →
  (N_of_ascii (Js.upper_char c) <? 128)%N = true.
Proof. destruct c as [[] [] [] [] [] [] [] []]; by vm_compute. Qed.

Lemma upper_char_not_lower c :
  ((97 <=? N_of_ascii (Js.upper_char c))
   && (N_of_ascii (Js.upper_char c) <=? 122))%N = false.
Proof. destruct c as [[] [] [] [] [] [] [] []]; by vm_compute. Qed.

Lemma is_ascii_toUpperCase s :
  JsString.is_ascii s = true → JsString.is_ascii (Js.toUpperCase s) = true.
Proof.
  induction s as [|c s IH]; simpl; [done|].
  intros [Hc Hs]%andb_true_iff.
  by rewrite upper_char_ascii, IH.
Qed.

Lemma is_ascii_substring0 n s :
  JsString.is_ascii s = true → JsString.is_ascii (Js.substring0 n s) = true.
Proof.
  unfold Js.substring0. revert s.
  induction n as [|n IH]; intros [|c s]; simpl; try done.
  intros [Hc Hs]%andb_true_iff. by rewrite Hc, IH.
Qed.

Lemma toUpperCase_no_lower s :
  Forall (λ c, ((97 <=? N_of_ascii c) && (N_of_ascii c <=? 122))%N = false)
    (list_ascii_of_string (Js.toUpperCase s)).
Proof.
  induction s as [|c s IH]; simpl; constructor; [|done].
  apply upper_char_not_lower.
Qed.

(** X8: when the lookup has no entry for the home team and the team's
    name is ASCII text, the published abbreviation has as many
    characters as the name, up to 4 (a shorter name is not padded); it
    is ASCII text without any lower-case letter, and upper-casing it
    again changes nothing. *)
Theorem fallback_abbr_shape (g : game) (teamData : gmap string TeamData.entry) :
  teamData !! home_team g = None →
  JsString.is_ascii (home_team g) = true →
  String.length (Schema.abbr (Schema.home (mapToSchema g teamData)))
  = Nat.min 4 (String.length (home_team g))
  ∧ JsString.is_ascii (Schema.abbr (Schema.home (mapToSchema g teamData))) = true
  ∧ Forall (λ c, ((97 <=? N_of_ascii c) && (N_of_ascii c <=? 122))%N = false)
      (list_ascii_of_string (Schema.abbr (Schema.home (mapToSchema g teamData))))
  ∧ Js.toUpperCase (Schema.abbr (Schema.home (mapToSchema g teamData)))
    = Schema.abbr (Schema.home (mapToSchema g teamData)).
Proof.
  intros Hn Hascii.
  destruct (mapToSchema_no_entry_home g teamData Hn) as [-> _].
  split_and!.
  - by rewrite toUpperCase_length, substring0_length.
  - by apply is_ascii_toUpperCase, is_ascii_substring0.
  - apply toUpperCase_no_lower.
  - apply toUpperCase_idemp.
Qed.

Lemma fallback_abbr_shape_witness :
  String.length (Schema.abbr (Schema.home (mapToSchema scenario_game ∅))) = 1%nat
  ∧ String.length (Schema.abbr (Schema.home (mapToSchema fresno_game ∅))) = 4%nat.
Proof.
  destruct (fallback_abbr_shape scenario_game ∅ (lookup_empty _) eq_refl)
    as [H _].
  destruct (fallback_abbr_shape fresno_game ∅ (lookup_empty _) eq_refl)
    as [H' _].
  split; [exact H|exact H'].
Defined.

(** ** How a run ends *)















(** X10: a written document carries the season, week and scope of the
    environment and the clock value, four opinions and two upcoming
    entries whatever the games; its top games are the ranked games in
    rank order, each with its two team names and its score line, so
    there are [min 5 n] of them for [n] eligible fetched games; and the
    file is [week_NN.json] under [data/SCOPE]. *)
Theorem written_document_shape (cfg : config) (w : world)
    (segs : list string) (doc : Draft.document) :
  generateDraft cfg w = Written segs doc →
  let games := fetchGames cfg (net w) (SEASON cfg) (WEEK cfg) (SCOPE cfg) in
  segs = [".."; "data"; SCOPE cfg;
          "week_" +:+ Js.padStart2 (WEEK cfg) +:+ ".json"]
  ∧ Draft.meta doc
    = {| Draft.season := SEASON cfg; Draft.week := WEEK cfg;
         Draft.scope := SCOPE cfg; Draft.generated_at := now w;
         Draft.sources := ["cfbd:v1 games/box; rankings/v1"] |}
  ∧ length (Draft.quick_opinions doc) = 4%nat
  ∧ length (Draft.whats_next doc) = 2%nat
  ∧ length (Draft.top_games doc)
    = Nat.min 5 (length (filter (λ g, eligible g = true) games))
  ∧ (λ p, (Schema.name (Schema.home p), Schema.name (Schema.away p),
           Schema.final p)) <$> Draft.top_games doc
    = (λ g, (home_team g, away_team g,
             Js.show_points (home_points g) +:+ "–"
               +:+ Js.show_points (away_points g))) <$> rankGames games.
Proof.
  intros Hrun games. revert Hrun. unfold generateDraft. fold games.
  destruct games as [|g0 rest] eqn:E; [done|].
  intros [= <- <-]. simpl Draft.top_games. split_and!; try done.
  - rewrite length_imap, rankGames_unfold, length_take, sort_length.
    unfold eligible_annotated. by rewrite length_fmap.
  - generalize (random w). generalize (rankGames (g0 :: rest)).
    intros l. induction l as [|g l IH]; intros rnd; [done|].
    rewrite imap_cons, !fmap_cons.
    f_equal; first [by destruct (rnd 0%nat)|apply (IH (rnd ∘ S))].
Qed.

Lemma written_document_shape_witness :
  ∃ segs doc,
    generateDraft sample_cfg (answering [fresno_game]) = Written segs doc
    ∧ segs = [".."; "data"; "cfb"; "week_01.json"]
    ∧ length (Draft.top_games doc) = 1%nat.
Proof.
  eexists _, _. split; [reflexivity|].
  destruct (written_document_shape sample_cfg (answering [fresno_game]) _ _
              eq_refl) as (H1 & _ & _ & _ & H5 & _).
  split; [exact H1|exact H5].
Defined.

(** ** Week numbers in file names *)

Lemma pretty_N_go_length (x : N) (s : string) :
  (String.length s ≤ String.length (pretty_N_go x s))%nat
  ∧ ((0 < x)%N → (S (String.length s) ≤ String.length (pretty_N_go x s))%nat).
Proof.
  revert s. induction (N.lt_wf_0 x) as [x _ IH]. intros s.
  destruct (decide (x = 0)%N) as [->|Hx].
  - rewrite pretty_N_go_0. split; [done|lia].
  - rewrite pretty_N_go_step by lia.
    assert (x `div` 10 < x)%N as Hlt by (apply N.div_lt; lia).
    destruct (IH _ Hlt (String (pretty_N_char (x `mod` 10)) s)) as [Hle _].
    change (String.length (String (pretty_N_char (x `mod` 10)) s))
      with (S (String.length s)) in Hle.
    split; [by apply Nat.lt_le_incl|done].
Qed.

(** The first character of a positive number is not the digit 0. *)
Lemma pretty_N_go_head (x : N) (s : string) :
  (0 < x)%N →
  ∃ c r, pretty_N_go x s = String c r ∧ c ≠ "0"%char ∧ c ≠ "-"%char.
Proof.
  revert s. induction (N.lt_wf_0 x) as [x _ IH]. intros s Hx.
  rewrite pretty_N_go_step by done.
  destruct (decide (x `div` 10 = 0)%N) as [Hd|Hd].
  - rewrite Hd, pretty_N_go_0. eexists _, _. split; [done|].
    assert (x < 10)%N as Hlt by (apply N.div_small_iff in Hd; lia).
    rewrite N.mod_small by done.
    assert (x = 1 ∨ x = 2 ∨ x = 3 ∨ x = 4 ∨ x = 5 ∨ x = 6 ∨ x = 7 ∨ x = 8
            ∨ x = 9)%N as Hcases by lia.
    destruct_or!; subst x; split; discriminate.
  - apply IH; [apply N.div_lt; lia|by apply N.neq_0_lt_0].
Qed.

Lemma pretty_Z_small (n : Z) :
  0 ≤ n ≤ 9 → ∃ c, pretty n = String c "".
Proof.
  intros Hn.
  assert (n = 0 ∨ n = 1 ∨ n = 2 ∨ n = 3 ∨ n = 4 ∨ n = 5 ∨ n = 6 ∨ n = 7
          ∨ n = 8 ∨ n = 9) as Hcases by lia.
  destruct_or!; subst n; by eexists.
Qed.

Lemma pretty_Z_long (n : Z) :
  n < 0 ∨ 10 ≤ n → (2 ≤ String.length (pretty n))%nat.
Proof.
  intros Hn. destruct n as [|p|p]; [lia| |].
  - destruct Hn as [?|Hn]; [lia|].
    unfold pretty, pretty_Z, pretty, pretty_positive, pretty, pretty_N.
    rewrite decide_False by done.
    rewrite pretty_N_go_step by lia.
    assert (0 < N.pos p `div` 10)%N as Hpos.
    { apply N.div_str_pos. lia. }
    destruct (pretty_N_go_length (N.pos p `div` 10)
                (String (pretty_N_char (N.pos p `mod` 10)) "")) as [_ Hlen].
    specialize (Hlen Hpos).
    change (String.length (String (pretty_N_char (N.pos p `mod` 10)) ""))
      with 1%nat in Hlen.
    lia.
  - unfold pretty, pretty_Z, pretty, pretty_positive, pretty, pretty_N.
    rewrite decide_False by done.
    rewrite append_cons.
    change (String.length (String "-" ?s)) with (S (String.length s)).
    destruct (pretty_N_go_length (N.pos p) "") as [_ Hlen].
    specialize (Hlen ltac:(lia)).
    change (String.length "") with 0%nat in Hlen.
    rewrite length_append. simpl String.length at 1. lia.
Qed.

Lemma pretty_Z_head (n : Z) :
  n ≠ 0 → ∃ c r, pretty n = String c r ∧ c ≠ "0"%char.
Proof.
  intros Hn. destruct n as [|p|p]; [done| |].
  - unfold pretty, pretty_Z, pretty, pretty_positive, pretty, pretty_N.
    rewrite decide_False by done.
    destruct (pretty_N_go_head (N.pos p) "") as (c & r & -> & ? & _); [lia|].
    eauto.
  - unfold pretty, pretty_Z. rewrite append_cons. eexists _, _.
    split; [done|discriminate].
Qed.

Lemma padStart2_cases (n : Z) :
  (0 ≤ n ≤ 9 ∧ Js.padStart2 n = "0" +:+ pretty n
   ∧ String.length (pretty n) = 1%nat)
  ∨ ((n < 0 ∨ 10 ≤ n) ∧ Js.padStart2 n = pretty n
     ∧ (2 ≤ String.length (pretty n))%nat).
Proof.
  destruct (decide (0 ≤ n ≤ 9)) as [Hn|Hn].
  - left. destruct (pretty_Z_small n Hn) as [c Hc].
    unfold Js.padStart2. rewrite Hc. split; [done|]. split; reflexivity.
  - right. assert (n < 0 ∨ 10 ≤ n) as Hn' by lia.
    pose proof (pretty_Z_long n Hn') as Hlen.
    unfold Js.padStart2. split_and!; [done| |done].
    destruct (_ <? 2)%nat eqn:E; [|done].
    apply Nat.ltb_lt in E. lia.
Qed.

Lemma padStart2_inj (n m : Z) : Js.padStart2 n = Js.padStart2 m → n = m.
Proof.
  destruct (padStart2_cases n) as [(Hn & -> & Hln)|(Hn & -> & Hln)];
    destruct (padStart2_cases m) as [(Hm & -> & Hlm)|(Hm & -> & Hlm)].
  - intros Heq. apply (inj (String.append "0")) in Heq.
    by apply (inj pretty).
  - intros Heq. exfalso.
    destruct (pretty_Z_head m) as (c & r & Hc & Hne); [lia|].
    rewrite Hc, append_cons in Heq. by injection Heq as <- _.
  - intros Heq. exfalso.
    destruct (pretty_Z_head n) as (c & r & Hc & Hne); [lia|].
    rewrite Hc, append_cons in Heq. by injection Heq as -> _.
  - apply (inj pretty).
Qed.

(** X11: [String(n).padStart(2, '0')] puts one zero in front of the
    numbers 0 to 9 and leaves every other integer as it is, so the result
    has at least two characters; distinct numbers give distinct strings. *)
Theorem padStart2_spec (n m : Z) :
  (0 ≤ n ≤ 9 → Js.padStart2 n = "0" +:+ pretty n
               ∧ String.length (Js.padStart2 n) = 2%nat)
  ∧ (n < 0 ∨ 10 ≤ n → Js.padStart2 n = pretty n)
  ∧ (2 ≤ String.length (Js.padStart2 n))%nat
  ∧ (Js.padStart2 n = Js.padStart2 m → n = m).
Proof.
  split_and!.
  - intros Hn. destruct (padStart2_cases n) as [(_ & -> & Hl)|(? & _)]; [|lia].
    split; [done|]. by rewrite length_append, Hl.
  - intros Hn. destruct (padStart2_cases n) as [(? & _)|(_ & -> & _)]; [lia|done].
  - destruct (padStart2_cases n) as [(_ & -> & Hl)|(_ & -> & Hl)]; [|done].
    by rewrite length_append, Hl.
  - apply padStart2_inj.
Qed.

Lemma padStart2_spec_witness :
  Js.padStart2 7 = "07" ∧ Js.padStart2 12 = "12".
Proof.
  destruct (padStart2_spec 7 7) as ([H7 _] & _); [lia|].
  destruct (padStart2_spec 12 12) as (_ & H12 & _).
  split; [exact H7|apply H12; lia].
Defined.

(** ** The front-end state *)

Lemma lower_char_idemp c : JsString.lower_char (JsString.lower_char c) = JsString.lower_char c.
Proof. destruct c as [[] [] [] [] [] [] [] []]; reflexivity. Qed.

Lemma toLowerCase_idemp s : JsString.toLowerCase (JsString.toLowerCase s) = JsString.toLowerCase s.
Proof.
  induction s as [|c s IH]; simpl; [done|].
  by rewrite lower_char_idemp, IH.
Qed.

Lemma toLowerCase_append a b :
  JsString.toLowerCase (a +:+ b) = JsString.toLowerCase a +:+ JsString.toLowerCase b.
Proof.
  induction a as [|c a IH]; [done|].
  rewrite append_cons. simpl. by rewrite IH, append_cons.
Qed.

(** What the setters keep true of a state. *)
Lemma state_step_invariant {data} (st : State.t data) (c : State.call data) :
  (State._scope st = "cfb" ∨ State._scope st = "nfl") →
  JsString.toLowerCase (State._searchTerm st) = State._searchTerm st →
  (State._scope (State.step st c) = "cfb"
   ∨ State._scope (State.step st c) = "nfl")
  ∧ JsString.toLowerCase (State._searchTerm (State.step st c))
    = State._searchTerm (State.step st c).
Proof.
  intros Hs Ht. destruct c as [scope|w|term|d]; simpl; try done.
  - unfold State.setScope.
    destruct (bool_decide (scope = "cfb")) eqn:E1;
      [apply bool_decide_eq_true in E1; simpl; auto|].
    destruct (bool_decide (scope = "nfl")) eqn:E2;
      [apply bool_decide_eq_true in E2; simpl; auto|].
    simpl. auto.
  - split; [done|apply toLowerCase_idemp].
Qed.

(** X12: the scope guard and the search term. [setScope] returns true
    exactly for "cfb" and "nfl" and otherwise leaves the state as it is;
    so after any sequence of setter calls on the initial state the scope
    is "cfb" or "nfl", and the stored search term is in lower case. *)
Theorem state_keeps_scope_and_term {data : Type} (calls : list (State.call data)) :
  (∀ scope (st : State.t data),
     (snd (State.setScope scope st) = true ↔ scope = "cfb" ∨ scope = "nfl")
     ∧ (snd (State.setScope scope st) = false → fst (State.setScope scope st) = st)
     ∧ (snd (State.setScope scope st) = true →
        State._scope (fst (State.setScope scope st)) = scope))
  ∧ (State._scope (State.run calls State.initial) = "cfb"
     ∨ State._scope (State.run calls State.initial) = "nfl")
  ∧ JsString.toLowerCase (State._searchTerm (State.run calls State.initial))
    = State._searchTerm (State.run calls State.initial).
Proof.
  split.
  - intros scope st. unfold State.setScope.
    destruct (bool_decide (scope = "cfb")) eqn:E1;
      destruct (bool_decide (scope = "nfl")) eqn:E2; simpl;
      try apply bool_decide_eq_true in E1;
      try apply bool_decide_eq_true in E2;
      try apply bool_decide_eq_false in E1;
      try apply bool_decide_eq_false in E2;
      intuition congruence.
  - unfold State.run.
    assert (∀ st : State.t data,
              (State._scope st = "cfb" ∨ State._scope st = "nfl") →
              JsString.toLowerCase (State._searchTerm st) = State._searchTerm st →
              (State._scope (foldl State.step st calls) = "cfb"
               ∨ State._scope (foldl State.step st calls) = "nfl")
              ∧ JsString.toLowerCase (State._searchTerm (foldl State.step st calls))
                = State._searchTerm (foldl State.step st calls)) as Hall.
    { induction calls as [|c calls IH]; intros st Hs Ht; simpl; [done|].
      destruct (state_step_invariant st c Hs Ht). by apply IH. }
    apply Hall; [by left|done].
Qed.

(** ** Week numbers from dates *)

Lemma resolveWeekNumber_facts (d d' : Z) :
  1 ≤ State.resolveWeekNumber d ≤ 17
  ∧ (d < 7 * 86400000 → State.resolveWeekNumber d = 1)
  ∧ (112 * 86400000 ≤ d → State.resolveWeekNumber d = 17)
  ∧ (∀ k, 0 ≤ k ≤ 16 → 7 * 86400000 * k ≤ d < 7 * 86400000 * (k + 1) →
          State.resolveWeekNumber d = k + 1)
  ∧ (d ≤ d' → State.resolveWeekNumber d ≤ State.resolveWeekNumber d').
Proof.
  unfold State.resolveWeekNumber.
  change (1000 * 60 * 60 * 24) with 86400000.
  split; [lia|]. split_and!.
  - intros Hd.
    assert (d / 86400000 / 7 < 1) as H.
    { rewrite Z.div_div by lia. apply Z.div_lt_upper_bound; lia. }
    lia.
  - intros Hd.
    assert (16 ≤ d / 86400000 / 7) as H.
    { rewrite Z.div_div by lia. apply Z.div_le_lower_bound; lia. }
    lia.
  - intros k Hk Hd.
    assert (d / 86400000 / 7 = k) as H.
    { rewrite Z.div_div by lia. symmetry.
      apply (Z.div_unique_pos d (86400000 * 7) k (d - 86400000 * 7 * k)); lia. }
    lia.
  - intros Hd.
    assert (d / 86400000 / 7 ≤ d' / 86400000 / 7) as H.
    { rewrite !Z.div_div by lia. apply Z.div_le_mono; lia. }
    lia.
Qed.

(** X13: [resolveWeekNumber] counts from August 1st of the date's own
    year and always answers a week from 1 to 17: 1 for every date less
    than 7 days after that August 1st, hence for every date of the year
    before it; 17 from the 112th day on; [k + 1] during the [k]-th full
    week after it. Between two dates of the same year it never
    decreases; across the new year it falls back, from 17 on a date in
    December to 1 on a later date in January. *)
Theorem resolveWeekNumber_range (getFullYear august1 : Z → Z) (date date' : Z) :
  let week := State.resolveWeekNumberAt getFullYear august1 in
  let start := august1 (getFullYear date) in
  1 ≤ week date ≤ 17
  ∧ (date < start + 7 * 86400000 → week date = 1)
  ∧ (start + 112 * 86400000 ≤ date → week date = 17)
  ∧ (∀ k, 0 ≤ k ≤ 16 →
          start + 7 * 86400000 * k ≤ date < start + 7 * 86400000 * (k + 1) →
          week date = k + 1)
  ∧ (getFullYear date = getFullYear date' → date ≤ date' →
     week date ≤ week date')
  ∧ (start + 112 * 86400000 ≤ date → date ≤ date' →
     date' < august1 (getFullYear date') →
     week date' < week date).
Proof.
  intros week start. unfold week, State.resolveWeekNumberAt. fold start.
  destruct (resolveWeekNumber_facts (date - start) (date' - start))
    as (Hrange & Hfirst & Hlast & Hk & Hmono).
  split; [exact Hrange|]. split_and!.
  - intros Hd. apply Hfirst. lia.
  - intros Hd. apply Hlast. lia.
  - intros k Hk0 Hd. apply Hk; lia.
  - intros Hyear Hd. rewrite <- Hyear. fold start. apply Hmono. lia.
  - intros Hd _ Hd'.
    destruct (resolveWeekNumber_facts
                (date' - august1 (getFullYear date')) 0) as (_ & Hone & _).
    rewrite Hone, Hlast by lia. lia.
Qed.

(** A calendar for the examples: years of 365 days counted from time 0,
    August 1st being the 212th day of each. *)
Lemma resolveWeekNumber_range_witness :
  let getFullYear := λ t, t / (365 * 86400000) in
  let august1 := λ y, y * (365 * 86400000) + 212 * 86400000 in
  State.resolveWeekNumberAt getFullYear august1 (242 * 86400000) = 5
  ∧ State.resolveWeekNumberAt getFullYear august1 (364 * 86400000) = 17
  ∧ State.resolveWeekNumberAt getFullYear august1 (365 * 86400000) = 1.
Proof.
  intros getFullYear august1.
  destruct (resolveWeekNumber_range getFullYear august1
              (242 * 86400000) (242 * 86400000)) as (_ & _ & _ & H & _).
  destruct (resolveWeekNumber_range getFullYear august1
              (364 * 86400000) (364 * 86400000)) as (_ & _ & H17 & _).
  destruct (resolveWeekNumber_range getFullYear august1
              (365 * 86400000) (365 * 86400000)) as (_ & H1 & _).
  split_and!.
  - apply (H 4); [lia|]. vm_compute. split; [discriminate|reflexivity].
  - apply H17. vm_compute. discriminate.
  - apply H1. vm_compute. reflexivity.
Defined.

(** ** Data paths *)

Lemma append_inj_r (a b c : string) : a +:+ c = b +:+ c → a = b.
Proof.
  revert b. induction a as [|x a IH]; intros [|y b] Heq; [done| | |].
  - exfalso. apply (f_equal String.length) in Heq.
    rewrite !length_append in Heq. simpl in Heq. lia.
  - exfalso. apply (f_equal String.length) in Heq.
    rewrite !length_append in Heq. simpl in Heq. lia.
  - rewrite !append_cons in Heq. injection Heq as -> Heq.
    f_equal. by apply IH.
Qed.

(** X14: the front end asks for the file that the generator writes: for
    the scope and week of a run that wrote a document, [dataPath] is the
    generator's path below the repository root. For the current week the
    path names a week from 01 to 17, and two different week numbers never
    give the same path. *)
Theorem dataPath_matches_generator (cfg : config) (w : world)
    (segs : list string) (doc : Draft.document) (today : Z) :
  generateDraft cfg w = Written segs doc →
  State.dataPath today (SCOPE cfg) (State.Week (WEEK cfg))
  = "/" +:+ String.concat "/" (drop 1 segs)
  ∧ (∃ k, 1 ≤ k ≤ 17
          ∧ State.dataPath today (SCOPE cfg) State.Current
            = State.dataPath today (SCOPE cfg) (State.Week k)
          ∧ String.length (Js.padStart2 k) = 2%nat)
  ∧ (∀ scope n m,
       State.dataPath today scope (State.Week n)
       = State.dataPath today scope (State.Week m) → n = m).
Proof.
  intros Hrun. split_and!.
  - revert Hrun. unfold generateDraft.
    destruct (fetchGames _ _ _ _ _); [done|]. by intros [= <- _].
  - exists (State.resolveWeekNumber today).
    assert (1 ≤ State.resolveWeekNumber today ≤ 17) as Hk
      by (unfold State.resolveWeekNumber; lia).
    split_and!; [lia|lia|done|].
    revert Hk. generalize (State.resolveWeekNumber today) as k. intros k Hk.
    assert (k = 1 ∨ k = 2 ∨ k = 3 ∨ k = 4 ∨ k = 5 ∨ k = 6 ∨ k = 7 ∨ k = 8
            ∨ k = 9 ∨ k = 10 ∨ k = 11 ∨ k = 12 ∨ k = 13 ∨ k = 14 ∨ k = 15
            ∨ k = 16 ∨ k = 17) as Hcases by lia.
    destruct_or!; subst k; reflexivity.
  - intros scope n m. unfold State.dataPath. intros Heq.
    apply (inj (String.append "/data/")) in Heq.
    apply (inj (String.append scope)) in Heq.
    apply (inj (String.append "/week_")) in Heq.
    apply append_inj_r in Heq.
    by apply padStart2_inj.
Qed.

Lemma dataPath_matches_generator_witness :
  State.dataPath 0 "cfb" (State.Week 1) = "/data/cfb/week_01.json".
Proof.
  destruct (dataPath_matches_generator sample_cfg (answering [fresno_game])
              _ _ 0 eq_refl) as (H & _).
  exact H.
Defined.

(** ** Searching the rendered games *)

Lemma includes_unfold s t :
  JsString.includes s t
  = String.prefix t s
    || match s with
       | EmptyString => false
       | String _ r => JsString.includes r t
       end.
Proof. by destruct s. Qed.

Lemma prefix_append t r : String.prefix t (t +:+ r) = true.
Proof.
  induction t as [|c t IH]; [by destruct r|].
  rewrite append_cons. simpl. by destruct (ascii_dec c c).
Qed.

Lemma includes_middle a t b : JsString.includes (a +:+ t +:+ b) t = true.
Proof.
  induction a as [|c a IH].
  - change ("" +:+ t +:+ b) with (t +:+ b).
    by rewrite includes_unfold, prefix_append.
  - rewrite append_cons, includes_unfold, IH. apply orb_true_r.
Qed.

Lemma concat_elem (sep : string) (parts : list string) (x : string) :
  x ∈ parts → ∃ a b, String.concat sep parts = a +:+ x +:+ b.
Proof.
  induction parts as [|y parts IH]; [by intros ?%elem_of_nil|].
  intros [->|Hin]%elem_of_cons.
  - destruct parts as [|z parts].
    + exists "", "". simpl. by rewrite append_empty_r.
    + exists "", (sep +:+ String.concat sep (z :: parts)). done.
  - destruct (IH Hin) as (a & b & Heq).
    destruct parts as [|z parts]; [by apply elem_of_nil in Hin|].
    exists (y +:+ sep +:+ a), b.
    change (String.concat sep (y :: z :: parts))
      with (y +:+ sep +:+ String.concat sep (z :: parts)).
    by rewrite Heq, !append_assoc.
Qed.

(** The fields of a game that the search looks at, besides the tags. *)
Lemma searchText_contains game fld a t b :
  fld ∈ [ Render.team_field (File.home game) File.name;
          Render.team_field (File.home game) File.abbr;
          Render.team_field (File.away game) File.name;
          Render.team_field (File.away game) File.abbr;
          Js.or_string (File.recap_2s game) "";
          Js.or_string (File.one_stat game) "";
          Js.or_string (File.why_it_mattered game) "" ] →
  fld = a +:+ t +:+ b →
  JsString.includes (Render._getGameSearchText game) (JsString.toLowerCase t) = true.
Proof.
  intros Hin ->. unfold Render._getGameSearchText.
  match goal with
  | |- context [String.concat " " ?parts] =>
      destruct (concat_elem " " parts (a +:+ t +:+ b)) as (a' & b' & ->)
  end.
  { repeat (apply elem_of_cons in Hin as [<-|Hin];
            [repeat first [apply list_elem_of_here|apply list_elem_of_further]|]).
    by apply elem_of_nil in Hin. }
  rewrite !toLowerCase_append, !append_assoc.
  rewrite <- (append_assoc (JsString.toLowerCase a') (JsString.toLowerCase a)).
  apply includes_middle.
Qed.

Lemma filtered_out_includes term text :
  JsString.includes text term = true → Render.filtered_out term text = false.
Proof. intros H. destruct term; [done|]. simpl. by rewrite H. Qed.

(** X15: the search is case-insensitive on ASCII text and finds what is
    there. After [setSearchTerm(term)] with an ASCII term, a rendered
    game stays visible whenever one of its team names or abbreviations,
    its recap, stat or rationale contains ASCII text that equals the
    term up to the case of its letters; its element is in the container
    at the position of the game. *)
Theorem search_keeps_matching_game {element : Type}
    (create : File.game → element) (st : State.t File.data)
    (p : Render.page) (games : list File.game) (i : nat) (game : File.game)
    (term fld a t b : string) :
  games !! i = Some game →
  fld ∈ [ Render.team_field (File.home game) File.name;
          Render.team_field (File.home game) File.abbr;
          Render.team_field (File.away game) File.name;
          Render.team_field (File.away game) File.abbr;
          Js.or_string (File.recap_2s game) "";
          Js.or_string (File.one_stat game) "";
          Js.or_string (File.why_it_mattered game) "" ] →
  fld = a +:+ t +:+ b →
  JsString.is_ascii t = true →
  JsString.is_ascii term = true →
  JsString.toLowerCase t = JsString.toLowerCase term →
  is_Some (Render.top_games_box p) →
  ∃ children,
    Render.top_games_box
      (Render.renderTopGames create
         (State.getSearchTerm (State.setSearchTerm term st)) (Some games) p)
    = Some children
    ∧ children !! i = Some (Render.Item (create game) false).
Proof.
  intros Hi Hin Hfld _ _ Hcase [old Hbox].
  change (State.getSearchTerm (State.setSearchTerm term st))
    with (JsString.toLowerCase term).
  unfold Render.renderTopGames. rewrite Hbox.
  destruct games as [|g0 rest] eqn:E; [done|]. rewrite <- E in *.
  eexists. split; [reflexivity|].
  rewrite list_lookup_fmap, Hi. simpl. do 2 f_equal.
  apply filtered_out_includes. rewrite <- Hcase.
  by apply (searchText_contains game fld a t b).
Qed.

Lemma search_keeps_matching_game_witness :
  ∃ children,
    Render.top_games_box
      (Render.renderTopGames (λ g, g)
         (State.getSearchTerm
            (State.setSearchTerm (data := File.data) "fresno" State.initial))
         (Some [sample_file_game]) blank_page)
    = Some children
    ∧ children !! 0%nat = Some (Render.Item sample_file_game false).
Proof.
  apply (search_keeps_matching_game (λ g, g) State.initial blank_page
           [sample_file_game] 0 sample_file_game "fresno"
           "Fresno State" "" "Fresno" " State").
  - reflexivity.
  - apply list_elem_of_here.
  - reflexivity.
  - reflexivity.
  - reflexivity.
  - reflexivity.
  - by eexists.
Defined.

(** ** Rendering a section *)

Section RenderFacts.
Context {element : Type}.
Context (create : File.game → element).

(** X16: rendering is idempotent, as the module says, and more: what a
    section shows depends on the last render only, whatever was rendered
    before and with whatever search term. A render shows one element per
    item, hidden or not, or the single "Draft not ready yet" note when
    there is no item; with the empty search term nothing is hidden; and
    without its container a render changes nothing. *)
Theorem render_last_wins (term term' : string)
    (games games' : option (list File.game))
    (opinions opinions' : option (list string)) (p : Render.page) :
  Render.renderTopGames create term games
    (Render.renderTopGames create term' games' p)
  = Render.renderTopGames create term games p
  ∧ Render.renderOpinions term opinions (Render.renderOpinions term' opinions' p)
    = Render.renderOpinions (element := element) term opinions p
  ∧ (∀ old, Render.top_games_box p = Some old →
       ∃ children,
         Render.top_games_box (Render.renderTopGames create term games p)
         = Some children
         ∧ length children = Nat.max 1 (length (default [] games))
         ∧ (default [] games = [] → children = [Render.NoDraft])
         ∧ (term = "" → default [] games ≠ [] →
            children = (λ g, Render.Item (create g) false) <$> default [] games))
  ∧ (Render.top_games_box p = None →
     Render.renderTopGames create term games p = p).
Proof.
  split_and!.
  - unfold Render.renderTopGames.
    destruct (Render.top_games_box p) eqn:E; simpl; [done|by rewrite E].
  - unfold Render.renderOpinions.
    destruct (Render.opinions_box p) eqn:E; simpl; [done|by rewrite E].
  - intros old Hbox. unfold Render.renderTopGames. rewrite Hbox. simpl.
    eexists. split; [reflexivity|].
    destruct games as [[|g rest]|]; simpl; split_and!; try done.
    + by rewrite length_fmap.
    + by intros ->.
  - intros Hbox. unfold Render.renderTopGames. by rewrite Hbox.
Qed.

End RenderFacts.

Lemma render_last_wins_witness :
  ∃ children,
    Render.top_games_box
      (Render.renderTopGames (λ g, g) "" (Some [sample_file_game]) blank_page)
    = Some children
    ∧ length children = 1%nat.
Proof.
  destruct (render_last_wins (λ g : File.game, g) "" ""
              (Some [sample_file_game]) None None None blank_page)
    as (_ & _ & H & _).
  destruct (H [] eq_refl) as (children & Hc & Hl & _).
  exists children. split; [exact Hc|exact Hl].
Defined.

(** ** Loading a week *)

Section AppFacts.
Context {element : Type}.
Context (create : File.game → element).
Context (textContent : string → string).
Context (localeDateTime : string → string).
Context (server : App.site).

Lemma renderAll_none_boxes (st : State.t File.data) (p : Render.page) :
  let p' := App.renderAll create textContent localeDateTime st None p in
  Render.top_games_box p' = (λ _, [Render.NoDraft]) <$> Render.top_games_box p
  ∧ Render.opinions_box p' = (λ _, [Render.NoDraft]) <$> Render.opinions_box p
  ∧ Render.whats_next_box p'
    = (λ _, [Render.NoDraft]) <$> Render.whats_next_box p
  ∧ Render.title p' = Render.title p
  ∧ Render.updated p' = Render.updated p.
Proof.
  unfold App.renderAll, Render.renderWhatsNext, Render.renderOpinions,
    Render.renderTopGames.
  destruct p as [[t|] [o|] [n|] ti up]; simpl; done.
Qed.

Lemma top_box_renderWhatsNext term items (p : Render.page) :
  Render.top_games_box (Render.renderWhatsNext textContent term items p)
  = Render.top_games_box (element := element) p.
Proof.
  unfold Render.renderWhatsNext. by destruct (Render.whats_next_box p).
Qed.

Lemma top_box_renderOpinions term opinions (p : Render.page) :
  Render.top_games_box (Render.renderOpinions term opinions p)
  = Render.top_games_box (element := element) p.
Proof.
  unfold Render.renderOpinions. by destruct (Render.opinions_box p).
Qed.

Lemma top_box_renderTopGames term games (p q : Render.page) :
  (Render.top_games_box p = None ↔ Render.top_games_box q = None) →
  Render.top_games_box (Render.renderTopGames create term games p)
  = Render.top_games_box (Render.renderTopGames create term games q).
Proof.
  intros Hiff. unfold Render.renderTopGames.
  destruct (Render.top_games_box p) eqn:Ep,
    (Render.top_games_box q) eqn:Eq; simpl; try done.
  - destruct Hiff as [_ H]. by specialize (H eq_refl).
  - destruct Hiff as [H _]. by specialize (H eq_refl).
  - by rewrite Ep, Eq.
Qed.

(** X17: [initialize] shows the file of the current scope and week when
    it loads; otherwise the example file, asked for under
    [/data/week_00.example.json] and then under
    [data/week_00.example.json]; and when none loads it renders the
    empty state and leaves the data of the state as it was. The data of
    the state is always the file shown. *)
Theorem initialize_falls_back_to_example (today : Z)
    (st : State.t File.data) (p : Render.page) :
  let path := State.dataPath today (State._scope st) (State._week st) in
  let shown :=
    match server path with
    | Some d => Some d
    | None =>
        match server "/data/week_00.example.json" with
        | Some d => Some d
        | None => server "data/week_00.example.json"
        end
    end in
  let st' :=
    match shown with
    | Some d => State.setData (Some d) st
    | None => st
    end in
  App.initialize create textContent localeDateTime server today st p
  = (st', App.renderAll create textContent localeDateTime st' shown p)
  ∧ (shown = None →
     Render.top_games_box
       (snd (App.initialize create textContent localeDateTime server today st p))
     = (λ _, [Render.NoDraft]) <$> Render.top_games_box p).
Proof.
  intros path shown st'.
  assert (App.initialize create textContent localeDateTime server today st p
          = (st', App.renderAll create textContent localeDateTime st' shown p))
    as Heq.
  { unfold App.initialize, App.loadFallback, App.loadData.
    unfold State.getCurrentScope, State.getCurrentWeek.
    subst st' shown path. simpl.
    destruct (server (State.dataPath _ _ _)) as [d|]; [done|].
    destruct (server "/data/week_00.example.json") as [d|]; [done|].
    destruct (server "data/week_00.example.json") as [d|]; done. }
  split; [done|].
  intros Hnone. rewrite Heq, Hnone. cbn [snd].
  by destruct (renderAll_none_boxes st' p) as (-> & _).
Qed.

(** X18: after a week change to a week other than 0 whose file does not
    load, the three sections show "Draft not ready yet", but the title
    and the update text stay those of the week shown before, and the
    state still holds that week's data: the next [applySearchFilter]
    puts its games back on the page. The example file is not asked
    for. *)
Theorem failed_load_keeps_old_data (today : Z)
    (st : State.t File.data) (p : Render.page) (old : File.data) :
  server (State.dataPath today (State._scope st) (State._week st)) = None →
  App.is_week_zero (State._week st) = false →
  State._data st = Some old →
  let result := App.loadAndRender create textContent localeDateTime server
                  today st p in
  fst result = st
  ∧ Render.top_games_box (snd result)
    = (λ _, [Render.NoDraft]) <$> Render.top_games_box p
  ∧ Render.opinions_box (snd result)
    = (λ _, [Render.NoDraft]) <$> Render.opinions_box p
  ∧ Render.title (snd result) = Render.title p
  ∧ Render.updated (snd result) = Render.updated p
  ∧ Render.top_games_box
      (Render.applySearchFilter create textContent (fst result) (snd result))
    = Render.top_games_box
        (Render.renderTopGames create (State._searchTerm st)
           (File.top_games old) p).
Proof.
  intros Hmiss Hweek Hold result.
  assert (result
          = (st, App.renderAll create textContent localeDateTime st None p))
    as ->.
  { unfold result, App.loadAndRender, App.loadData.
    unfold State.getCurrentScope, State.getCurrentWeek.
    by rewrite Hmiss, Hweek. }
  destruct (renderAll_none_boxes st p) as (Ht & Ho & Hn & Hti & Hup).
  cbn [fst snd]. split_and!; try done.
  unfold Render.applySearchFilter, State.getData, State.getSearchTerm.
  rewrite Hold, top_box_renderWhatsNext, top_box_renderOpinions.
  apply top_box_renderTopGames. rewrite Ht.
  by destruct (Render.top_games_box p).
Qed.

End AppFacts.

Lemma failed_load_keeps_old_data_witness :
  let old := to_file {| Draft.meta := {| Draft.season := 2025; Draft.week := 2;
                                         Draft.scope := "cfb";
                                         Draft.generated_at := "t";
                                         Draft.sources := [] |};
                        Draft.top_games := [];
                        Draft.quick_opinions := ["o"];
                        Draft.whats_next := [] |} in
  let st := {| State._scope := "cfb"; State._week := State.Week 3;
               State._data := Some old; State._searchTerm := "" |} in
  fst (App.loadAndRender (λ g : File.game, g) (λ s, s) (λ s, s) (λ _, None)
         0 st blank_page) = st.
Proof.
  intros old st.
  destruct (failed_load_keeps_old_data (λ g : File.game, g) (λ s, s) (λ s, s)
              (λ _, None) 0 st blank_page old eq_refl eq_refl eq_refl)
    as (H & _).
  exact H.
Defined.

(** ** From the generator to the page *)

Section EndToEnd.
Context {element : Type}.
Context (create : File.game → element).
Context (textContent : string → string).
Context (localeDateTime : string → string).
Context (server : App.site).

Lemma boxes_renderMeta meta (p : Render.page) :
  Render.top_games_box (Render.renderMeta localeDateTime meta p)
  = Render.top_games_box (element := element) p
  ∧ Render.opinions_box (Render.renderMeta localeDateTime meta p)
    = Render.opinions_box p.
Proof. unfold Render.renderMeta. by destruct meta. Qed.

Lemma opinions_box_renderWhatsNext term items (p : Render.page) :
  Render.opinions_box (Render.renderWhatsNext textContent term items p)
  = Render.opinions_box (element := element) p.
Proof.
  unfold Render.renderWhatsNext. by destruct (Render.whats_next_box p).
Qed.

Lemma opinions_box_renderTopGames term games (p : Render.page) :
  Render.opinions_box (Render.renderTopGames create term games p)
  = Render.opinions_box p.
Proof.
  unfold Render.renderTopGames. by destruct (Render.top_games_box p).
Qed.

(** X19: the document of a run on the page. When the site serves the
    written document under the path of its scope and week, a week change
    to it with an empty search term stores the document in the state,
    shows one visible card per top game in rank order - or the "Draft
    not ready yet" note when the run found no eligible game - shows the
    four opinions, and sets the title to the week of the run. *)
Theorem generated_document_on_page (cfg : config) (w : world)
    (segs : list string) (doc : Draft.document) (today : Z)
    (st : State.t File.data) (p : Render.page) :
  generateDraft cfg w = Written segs doc →
  State._scope st = SCOPE cfg →
  State._week st = State.Week (WEEK cfg) →
  State._searchTerm st = "" →
  server (State.dataPath today (SCOPE cfg) (State.Week (WEEK cfg)))
  = Some (to_file doc) →
  is_Some (Render.top_games_box p) → is_Some (Render.opinions_box p) →
  let result := App.loadAndRender create textContent localeDateTime server
                  today st p in
  State._data (fst result) = Some (to_file doc)
  ∧ Render.top_games_box (snd result)
    = Some (match Draft.top_games doc with
            | [] => [Render.NoDraft]
            | games =>
                (λ g, Render.Item (create (to_file_game g)) false) <$> games
            end)
  ∧ Render.opinions_box (snd result)
    = Some ((λ o, Render.Item o false) <$> Draft.quick_opinions doc)
  ∧ length (Draft.quick_opinions doc) = 4%nat
  ∧ Render.title (snd result)
    = "Five-Minute Football"
        +:+ (if WEEK cfg =? 0 then "" else " — Week " +:+ pretty (WEEK cfg)).
Proof.
  intros Hrun Hscope Hweek Hterm Hserve [tb Htb] [ob Hob] result.
  assert (Draft.quick_opinions doc = generateOpinions []
          ∧ Draft.week (Draft.meta doc) = WEEK cfg) as [Hop Hwk].
  { revert Hrun. unfold generateDraft.
    destruct (fetchGames _ _ _ _ _); [done|]. by intros [= _ <-]. }
  assert (result
          = (State.setData (Some (to_file doc)) st,
             App.renderAll create textContent localeDateTime
               (State.setData (Some (to_file doc)) st) (Some (to_file doc)) p))
    as ->.
  { unfold result, App.loadAndRender, App.loadData.
    unfold State.getCurrentScope, State.getCurrentWeek.
    by rewrite Hscope, Hweek, Hserve. }
  cbn [fst snd]. split; [done|].
  unfold App.renderAll, State.getSearchTerm. cbn [State.setData State._searchTerm].
  rewrite Hterm. split_and!.
  - destruct (boxes_renderMeta
                (Some (default App.empty_meta (File.meta (to_file doc))))
                (Render.renderWhatsNext textContent ""
                   (Some (Js.or_array (File.whats_next (to_file doc)) []))
                   (Render.renderOpinions ""
                      (Some (Js.or_array (File.quick_opinions (to_file doc)) []))
                      (Render.renderTopGames create ""
                         (Some (Js.or_array (File.top_games (to_file doc)) []))
                         p)))) as [-> _].
    rewrite top_box_renderWhatsNext, top_box_renderOpinions.
    unfold Render.renderTopGames. rewrite Htb. simpl.
    destruct (Draft.top_games doc) as [|g rest]; [done|].
    simpl. by rewrite <- list_fmap_compose.
  - destruct (boxes_renderMeta
                (Some (default App.empty_meta (File.meta (to_file doc))))
                (Render.renderWhatsNext textContent ""
                   (Some (Js.or_array (File.whats_next (to_file doc)) []))
                   (Render.renderOpinions ""
                      (Some (Js.or_array (File.quick_opinions (to_file doc)) []))
                      (Render.renderTopGames create ""
                         (Some (Js.or_array (File.top_games (to_file doc)) []))
                         p)))) as [_ ->].
    rewrite opinions_box_renderWhatsNext.
    unfold Render.renderOpinions.
    rewrite opinions_box_renderTopGames, Hob. simpl. rewrite Hop.
    reflexivity.
  - by rewrite Hop.
  - unfold Render.renderMeta. simpl. rewrite Hwk.
    unfold Js.or_num. destruct (WEEK cfg =? 0) eqn:E; [done|by rewrite E].
Qed.

End EndToEnd.

Lemma generated_document_on_page_witness :
  ∃ segs doc,
    generateDraft sample_cfg (answering [unplayed_game]) = Written segs doc
    ∧ Render.top_games_box
        (snd (App.loadAndRender (λ g : File.game, g) (λ s, s) (λ s, s)
                (λ _, Some (to_file doc)) 0
                {| State._scope := "cfb"; State._week := State.Week 1;
                   State._data := None; State._searchTerm := "" |}
                blank_page))
      = Some [Render.NoDraft].
Proof.
  eexists _, _. split; [reflexivity|].
  match goal with
  | |- Render.top_games_box (snd (App.loadAndRender _ _ _ ?srv _ ?st ?p)) = _ =>
      destruct (generated_document_on_page (λ g : File.game, g) (λ s, s)
                  (λ s, s) srv sample_cfg (answering [unplayed_game]) _ _ 0
                  st p eq_refl eq_refl eq_refl eq_refl eq_refl
                  (ex_intro _ _ eq_refl) (ex_intro _ _ eq_refl))
        as (_ & H & _)
  end.
  exact H.
Defined.

Lemma rankGames_keeps_the_best_witness :
  length (rankGames six_games) = 5%nat
  ∧ ∃ dropped,
      rankGames six_games ++ dropped ≡ₚ eligible_annotated six_games
      ∧ length dropped = 1%nat.
Proof.
  destruct (rankGames_keeps_the_best six_games)
    as (Hlen & _ & dropped & Hperm & Hdrop & _).
  split; [exact Hlen|].
  exists dropped. split; [exact Hperm|exact Hdrop].
Defined.

Lemma state_keeps_scope_and_term_witness :
  State._scope (fst (State.setScope "nfl" (State.initial (data := File.data))))
  = "nfl".
Proof.
  destruct (state_keeps_scope_and_term (data := File.data) []) as (H & _).
  destruct (H "nfl" State.initial) as (_ & _ & H3).
  apply H3. reflexivity.
Defined.

Lemma initialize_falls_back_to_example_witness :
  Render.top_games_box
    (snd (App.initialize (λ g : File.game, g) (λ s, s) (λ s, s) (λ _, None)
            0 State.initial blank_page))
  = Some [Render.NoDraft].
Proof.
  destruct (initialize_falls_back_to_example (λ g : File.game, g) (λ s, s)
              (λ s, s) (λ _, None) 0 State.initial blank_page) as (_ & H).
  exact (H eq_refl).
Defined.

(** ** Ranking twice *)

Lemma annotate_idemp g : annotate (annotate g) = annotate g.
Proof. reflexivity. Qed.

Lemma eligible_annotate g : eligible (annotate g) = eligible g.
Proof. reflexivity. Qed.

Lemma sort_descending_id {A} (key : A → Z) (l : list A) :
  descending key l → Js.sort (by_key key) l = l.
Proof.
  unfold descending. induction 1 as [|x l Hl IH Hx]; [done|].
  simpl. rewrite IH. destruct l as [|y r]; [done|]. simpl.
  apply Forall_cons in Hx as [Hy _]. unfold by_key.
  destruct (0 <? key y - key x) eqn:E; [|done].
  apply Z.ltb_lt in E. lia.
Qed.

(** X20: ranking is idempotent: ranking the records that [rankGames]
    returned gives them back unchanged, in the same order and with the
    same derived fields. *)
Theorem rankGames_idempotent (games : list game) :
  rankGames (rankGames games) = rankGames games.
Proof.
  set (out := rankGames games).
  assert (Forall (λ r, eligible r = true ∧ annotate r = r) out) as Hall.
  { apply Forall_forall. intros r Hr.
    apply elem_of_rankGames in Hr as (g & _ & Hg & ->).
    by rewrite eligible_annotate, annotate_idemp. }
  assert (eligible_annotated out = out) as Hsame.
  { unfold eligible_annotated. clear -Hall.
    induction Hall as [|r l [He Ha] _ IH]; [done|].
    rewrite filter_cons_True by done. rewrite fmap_cons, Ha. by f_equal. }
  rewrite (rankGames_unfold out), Hsame.
  rewrite sort_descending_id by apply rankGames_descending.
  apply take_ge. unfold out.
  rewrite rankGames_unfold, length_take. lia.
Qed.

(** ** The week selector *)

Lemma countdown_spec (n : nat) :
  length (countdown n) = n
  ∧ Forall (λ i, 1 ≤ i ≤ Z.of_nat n) (countdown n)
  ∧ (∀ i, 1 ≤ i ≤ Z.of_nat n → i ∈ countdown n)
  ∧ StronglySorted (λ a b, b < a) (countdown n).
Proof.
  induction n as [|n (Hlen & Hall & Hin & Hsort)].
  - split_and!; [done|constructor| |constructor]. intros i Hi. lia.
  - cbn [countdown]. split_and!.
    + simpl. by rewrite Hlen.
    + constructor; [lia|]. eapply Forall_impl; [exact Hall|].
      intros i Hi. simpl in Hi. lia.
    + intros i Hi. destruct (decide (i = Z.of_nat (S n))) as [->|Hne].
      * apply list_elem_of_here.
      * apply list_elem_of_further, Hin. lia.
    + constructor; [done|]. eapply Forall_impl; [exact Hall|].
      intros i Hi. simpl in Hi. lia.
Qed.

(** X21: the week selector offers the weeks from the current one down
    to week 1, each once and labelled "Week i", and then the entry
    "Example" with value 0: between 2 and 18 options, none for a week
    after the current one. *)
Theorem populateWeekSelector_options (today : Z) :
  let k := State.resolveWeekNumber today in
  length (populateWeekSelector today) = S (Z.to_nat k)
  ∧ (2 ≤ length (populateWeekSelector today) ≤ 18)%nat
  ∧ last (populateWeekSelector today) = Some (0, "Example")
  ∧ (∀ v t, (v, t) ∈ populateWeekSelector today →
       0 ≤ v ≤ k ∧ t = if v =? 0 then "Example" else "Week " +:+ pretty v)
  ∧ (∀ v, 0 ≤ v ≤ k → v ∈ (populateWeekSelector today).*1)
  ∧ StronglySorted (λ a b, b < a) (populateWeekSelector today).*1.
Proof.
  intros k.
  assert (1 ≤ k ≤ 17) as Hk by (unfold k, State.resolveWeekNumber; lia).
  destruct (countdown_spec (Z.to_nat k)) as (Hlen & Hall & Hin & Hsort).
  unfold populateWeekSelector. cbv zeta. fold k.
  split_and!.
  - rewrite length_app, length_fmap, Hlen. simpl. lia.
  - rewrite length_app, length_fmap, Hlen. simpl. lia.
  - rewrite length_app, length_fmap, Hlen. simpl. lia.
  - by rewrite last_snoc.
  - intros v t [Hv|Hv]%elem_of_app.
    + apply list_elem_of_fmap in Hv as (i & [= -> ->] & Hi).
      rewrite Forall_forall in Hall. specialize (Hall i Hi).
      split; [lia|]. destruct (i =? 0) eqn:E; [|done].
      apply Z.eqb_eq in E. lia.
    + apply list_elem_of_singleton in Hv as [= -> ->]. split; [lia|done].
  - intros v Hv. rewrite fmap_app, <- list_fmap_compose.
    apply elem_of_app. destruct (decide (v = 0)) as [->|Hne].
    + right. apply list_elem_of_here.
    + left. apply list_elem_of_fmap. exists v. split; [done|].
      apply Hin. lia.
  - rewrite fmap_app, <- list_fmap_compose.
    apply StronglySorted_app_2.
    + intros a b [a' [-> Ha]]%list_elem_of_fmap Hb.
      apply list_elem_of_singleton in Hb as ->. simpl.
      rewrite Forall_forall in Hall. specialize (Hall a' Ha). simpl. lia.
    + replace ((fst ∘ (λ i, (i, "Week " +:+ pretty i))) <$> countdown (Z.to_nat k))
        with (countdown (Z.to_nat k)); [done|].
      clear. induction (countdown _) as [|x l IH]; [done|].
      rewrite fmap_cons. by f_equal.
    + repeat constructor.
Qed.

Lemma populateWeekSelector_options_witness :
  populateWeekSelector (30 * 86400000)
  = [(5, "Week 5"); (4, "Week 4"); (3, "Week 3"); (2, "Week 2"); (1, "Week 1");
     (0, "Example")]
  ∧ (0, "Example") ∈ populateWeekSelector (30 * 86400000).
Proof.
  split; [reflexivity|].
  destruct (populateWeekSelector_options (30 * 86400000))
    as (_ & _ & Hlast & _).
  apply last_Some in Hlast as [l ->].
  apply elem_of_app. right. apply list_elem_of_here.
Defined.
